(** * The context menu of the graph editor

    A shallow embedding of [src/components/graph/state/menu.ts]: the
    two-level context menu, its layout pass, its hit test with the sticky
    submenu and the buffer triangles, and the controller operations
    [show], [hide], [click], [setMousePosition] and [setPosition].

    Numbers.  Pixel coordinates, row offsets and clock readings are
    integers and are modelled in [Z].  The barycentric weights are
    quotients of integers; they are modelled as exact rationals together
    with the three special values a JavaScript division can produce
    (the two infinities and NaN), so that a division by zero behaves as
    in the source.  The rounding of binary64 arithmetic is not modelled.

    Objects.  The source compares menu options by reference ([==] and
    [!=]).  Every option therefore carries the identity of its object
    ([oid]); [rebuildOptions] allocates fresh identities. *)

From Stdlib Require Import ZArith List Bool String QArith Lia.
Import ListNotations.

Set Warnings "-register-all".

Local Open Scope string_scope.
Local Open Scope list_scope.
Local Open Scope Z_scope.

(** ** Vectors *)

(** Modelled from the spec: [Vec2], [vec2], [add] and [sub] are imported
    from the shared math module, which is not part of the sources; the
    spec describes them as the generic add/subtract on 2D points. *)
Record Vec2 : Type := vec2 { x : Z; y : Z }.

(** Modelled from the spec: component-wise addition of points. *)
Definition add (a b : Vec2) : Vec2 := vec2 (x a + x b) (y a + y b).

(** Modelled from the spec: component-wise subtraction of points. *)
Definition sub (a b : Vec2) : Vec2 := vec2 (x a - x b) (y a - y b).

(** ** JavaScript numbers produced by a division *)

Inductive Num : Type :=
| Fin (q : Q)
| PInf
| NInf
| NaN.

(** [a / b] on two integers: a zero divisor yields NaN or an infinity. *)
Definition numDiv (a b : Z) : Num :=
  if b =? 0 then
    if a =? 0 then NaN else if 0 <? a then PInf else NInf
  else Fin (Qdiv (inject_Z a) (inject_Z b)).

(** [a - b]. *)
Definition numSub (a b : Num) : Num :=
  match a, b with
  | NaN, _ | _, NaN => NaN
  | Fin p, Fin q => Fin (Qminus p q)
  | Fin _, PInf => NInf
  | Fin _, NInf => PInf
  | PInf, PInf => NaN
  | PInf, _ => PInf
  | NInf, NInf => NaN
  | NInf, _ => NInf
  end.

(** [a >= 0]. *)
Definition numGeq0 (a : Num) : bool :=
  match a with
  | Fin q => Qle_bool (inject_Z 0) q
  | PInf => true
  | NInf | NaN => false
  end.

(** ** Menu options *)

Inductive MenuOptionType : Type :=
| Default
| Header
| Spacer.

Inductive MenuOption : Type := mkMenuOption {
  oid : nat;
  type : MenuOptionType;
  label : string;
  action : string;
  shortcut : string;
  children : list MenuOption;
  computedOffset : Z;
  enabled : bool
}.

Record OptionTree : Type := mkOptionTree { options : list MenuOption }.

(** [a == b] on two option objects. *)
Definition sameObject (a b : MenuOption) : bool := Nat.eqb (oid a) (oid b).

(** [v != path[0]]: an empty path yields [undefined], which differs from
    every object. *)
Definition differsFromFirst (v : MenuOption) (path : list MenuOption) : bool :=
  match path with
  | [] => true
  | p :: _ => negb (sameObject v p)
  end.

(** ** The host *)

(** Modelled from the spec: the editor state that owns the menu is not
    part of the sources; the menu reads from it whether a point or a
    curve is selected and the bounds of the viewport. *)
Record Selected : Type := mkSelected { point : bool; curve : bool }.

(** Modelled from the spec: see [Selected]. *)
Record State : Type := mkState { selected : option Selected; bounds : Vec2 }.

(** Modelled from the spec: the action identifiers are imported constants
    whose values are not part of the sources. *)
Record ActionKeys : Type := mkActionKeys {
  Copy : string;
  SetGuideFrame : string;
  SetGuideValue : string;
  HandleToLinear : string;
  HandleToBeizer : string;
  InsertKeyframe : string;
  InsertKeyframeAllCurves : string;
  SnapFrame : string;
  SnapValue : string
}.

(** ** The menu *)

Record Menu : Type := mkMenu {
  position : Vec2;
  mousePosition : Vec2;
  mousePositionOnOpen : Vec2;
  tree : OptionTree;
  visible : bool;
  optionPath : list MenuOption;
  disableBufferTriangles : bool;
  enteredRootElementTimestamp : Z;
  (* identity of the next object to be allocated *)
  nextObject : nat
}.

Definition withPosition (p o : Vec2) (m : Menu) : Menu :=
  mkMenu p (mousePosition m) o (tree m) (visible m) (optionPath m)
    (disableBufferTriangles m) (enteredRootElementTimestamp m) (nextObject m).

Definition withMousePosition (v : Vec2) (m : Menu) : Menu :=
  mkMenu (position m) v (mousePositionOnOpen m) (tree m) (visible m)
    (optionPath m) (disableBufferTriangles m) (enteredRootElementTimestamp m)
    (nextObject m).

Definition withTree (t : OptionTree) (m : Menu) : Menu :=
  mkMenu (position m) (mousePosition m) (mousePositionOnOpen m) t (visible m)
    (optionPath m) (disableBufferTriangles m) (enteredRootElementTimestamp m)
    (nextObject m).

Definition withVisible (b : bool) (m : Menu) : Menu :=
  mkMenu (position m) (mousePosition m) (mousePositionOnOpen m) (tree m) b
    (optionPath m) (disableBufferTriangles m) (enteredRootElementTimestamp m)
    (nextObject m).

Definition withOptionPath (p : list MenuOption) (m : Menu) : Menu :=
  mkMenu (position m) (mousePosition m) (mousePositionOnOpen m) (tree m)
    (visible m) p (disableBufferTriangles m) (enteredRootElementTimestamp m)
    (nextObject m).

Definition withDisableBufferTriangles (b : bool) (m : Menu) : Menu :=
  mkMenu (position m) (mousePosition m) (mousePositionOnOpen m) (tree m)
    (visible m) (optionPath m) b (enteredRootElementTimestamp m)
    (nextObject m).

Definition withTimestamp (t : Z) (m : Menu) : Menu :=
  mkMenu (position m) (mousePosition m) (mousePositionOnOpen m) (tree m)
    (visible m) (optionPath m) (disableBufferTriangles m) t (nextObject m).

Definition withNextObject (n : nat) (m : Menu) : Menu :=
  mkMenu (position m) (mousePosition m) (mousePositionOnOpen m) (tree m)
    (visible m) (optionPath m) (disableBufferTriangles m)
    (enteredRootElementTimestamp m) n.

(** ** Geometry *)

Definition pointInBox (pt upperLeft size : Vec2) : bool :=
  let delta := sub pt upperLeft in
  (x delta <? x size) && (y delta <? y size) && (0 <=? x delta) && (0 <=? y delta).

Definition dot (a b : Vec2) : Z := x a * x b + y a * y b.

Definition Triangle : Type := (Vec2 * Vec2 * Vec2)%type.

Definition baycentric (pt : Vec2) (triangle : Triangle) : Num * Num * Num :=
  let '(t0, t1, t2) := triangle in
  let v0 := sub t1 t0 in
  let v1 := sub t2 t0 in
  let v2 := sub pt t0 in
  let d00 := dot v0 v0 in
  let d01 := dot v0 v1 in
  let d11 := dot v1 v1 in
  let d20 := dot v2 v0 in
  let d21 := dot v2 v1 in
  let denom := d00 * d11 - d01 * d01 in
  let v := numDiv (d11 * d20 - d01 * d21) denom in
  let w := numDiv (d00 * d21 - d01 * d20) denom in
  let u := numSub (numSub (Fin (inject_Z 1)) v) w in
  (u, v, w).

Definition pointInTriangle (pt : Vec2) (triangle : Triangle) : bool :=
  let '(u, v, w) := baycentric pt triangle in
  numGeq0 u && numGeq0 v && numGeq0 w.

(** ** Row heights and layout *)

Definition offsetOf (option : MenuOption) : Z :=
  match type option with
  | Spacer => 2
  | _ => 20
  end.

(** The body of the [forEach] of [computeOffsetForOptions]: the running
    height is threaded through the list, every option receives it as its
    offset, and the children are laid out from 12 again.  The source
    writes the offsets into the options; the embedding returns the
    options with their new offsets. *)
Fixpoint layoutOption (height : Z) (v : MenuOption) {struct v} : MenuOption :=
  match v with
  | mkMenuOption i t l a s ch _ e =>
      let laidOut :=
        (fix walk (h : Z) (os : list MenuOption) {struct os} : list MenuOption :=
           match os with
           | [] => []
           | c :: rest => layoutOption h c :: walk (h + offsetOf c) rest
           end) 12 ch in
      mkMenuOption i t l a s
        (match ch with [] => ch | _ :: _ => laidOut end) height e
  end.

Fixpoint layoutFrom (height : Z) (os : list MenuOption) : list MenuOption :=
  match os with
  | [] => []
  | v :: rest => layoutOption height v :: layoutFrom (height + offsetOf v) rest
  end.

Definition computeOffsetForOptions (os : list MenuOption) : list MenuOption :=
  layoutFrom 12 os.

(** ** Option constructors *)

Definition spacer (i : nat) : MenuOption :=
  mkMenuOption i Spacer "" "" "" [] 0 true.

Definition header (i : nat) (name : string) : MenuOption :=
  mkMenuOption i Header name "" "" [] 0 true.

Section Controller.

(** [Sizes.MenuWidth] and [Sizes.PropertiesWidth]: constants of the
    rendering module, which is not part of the sources. *)
Variable MenuWidth : Z.
Variable PropertiesWidth : Z.

(** [StateActionKeys] and [KeyboardActions.shortcuts] (the latter as the
    list of its entries, key first, in the order of [Object.keys]). *)
Variable StateActionKeys : ActionKeys.
Variable shortcuts : list (string * string).

Definition simpleOption (i : nat) (lbl act : string) (en : bool)
    (ch : list MenuOption) : MenuOption :=
  let sc :=
    fold_left (fun found kv => if String.eqb (snd kv) act then fst kv else found)
      shortcuts "" in
  mkMenuOption i Default lbl act sc ch 0 en.

Definition size (os : list MenuOption) : Vec2 :=
  vec2 MenuWidth (fold_left (fun height v => height + offsetOf v) os 0).

Definition setOptionTree (t : OptionTree) (m : Menu) : Menu := withTree t m.

Definition rebuildOptions (parent : State) (m : Menu) : Menu :=
  let hasSelectedPoint :=
    match selected parent with Some s => point s | None => false end in
  let n := nextObject m in
  let os := [
    header n "Curve Context Menu";
    spacer (n + 1);
    simpleOption (n + 2) "Copy" (Copy StateActionKeys) hasSelectedPoint [];
    spacer (n + 3);
    simpleOption (n + 4) "Move frame guide" (SetGuideFrame StateActionKeys) true [];
    simpleOption (n + 5) "Move value guide" (SetGuideValue StateActionKeys) true [];
    spacer (n + 6);
    simpleOption (n + 9) "Handle Type" "" hasSelectedPoint [
      simpleOption (n + 7) "Linear" (HandleToLinear StateActionKeys) true [];
      simpleOption (n + 8) "Beizer" (HandleToBeizer StateActionKeys) true []
    ];
    simpleOption (n + 10) "Insert keyframe" (InsertKeyframe StateActionKeys) true [];
    simpleOption (n + 11) "Insert keyframe in all curves"
      (InsertKeyframeAllCurves StateActionKeys) true [];
    simpleOption (n + 16) "Snap" "" hasSelectedPoint [
      header (n + 12) "Snap ...";
      spacer (n + 13);
      simpleOption (n + 14) "To selected frame" (SnapFrame StateActionKeys) true [];
      simpleOption (n + 15) "Value to guide" (SnapValue StateActionKeys) true []
    ]
  ]%nat in
  setOptionTree (mkOptionTree (computeOffsetForOptions os))
    (withNextObject (n + 17)%nat m).

Definition construct (parent : State) : Menu :=
  withVisible false
    (rebuildOptions parent
       (mkMenu (vec2 0 0) (vec2 0 0) (vec2 0 0) (mkOptionTree []) false []
          true 0 0%nat)).

Definition show (parent : State) (m : Menu) : Menu :=
  withVisible true (rebuildOptions parent m).

Definition hide (m : Menu) : Menu := withVisible false m.

(** ** The hit test *)

(** The corner from which the row of a root option and its submenu are
    measured. *)
Definition rowUpperLeft (m : Menu) (v : MenuOption) : Vec2 :=
  vec2 (x (position m)) (y (position m) + computedOffset v - 10).

Definition upperBufferTriangle (m : Menu) (root : MenuOption) : Triangle :=
  let sz := size (options (tree m)) in
  let upperLeft := rowUpperLeft m root in
  (upperLeft, add upperLeft (vec2 (x sz) 0), add upperLeft (vec2 (x sz) (-15))).

Definition lowerBufferTriangle (m : Menu) (root : MenuOption) : Triangle :=
  let sz := size (options (tree m)) in
  let childSize := size (children root) in
  let lowerLeft := add (rowUpperLeft m root) (vec2 0 (offsetOf root)) in
  (lowerLeft, add lowerLeft (vec2 (x sz) (y childSize)),
   add lowerLeft (vec2 (x sz) 0)).

(** The test applied to a child [c] of the root whose row starts at
    [upperLeft].  Both [size.x] and [childSize.x] are the width of the
    menu column. *)
Definition inChildRow (m : Menu) (upperLeft : Vec2) (c : MenuOption) : bool :=
  pointInBox (mousePosition m)
    (add upperLeft (vec2 MenuWidth (computedOffset c - 10)))
    (vec2 MenuWidth (offsetOf c)).

Definition inChildMenu (m : Menu) (root : MenuOption) : bool :=
  pointInBox (mousePosition m)
    (add (position m) (vec2 MenuWidth (computedOffset root - 10)))
    (size (children root)).

(** The first part of [optionPathUnderMouse]: the submenu of the root of
    the previous path is open.  [None] when the code falls through to the
    scan of the whole tree. *)
Definition stickySubmenu (m : Menu) : option (list MenuOption * Menu) :=
  match optionPath m with
  | [] => None
  | root :: _ =>
      match children root with
      | [] => None
      | _ :: _ =>
          let sz := size (options (tree m)) in
          let childSize := size (children root) in
          let inRootOption :=
            pointInBox (mousePosition m)
              (vec2 (x (position m)) (y (position m) + computedOffset root))
              (vec2 (x sz) (offsetOf root)) in
          let inChild := inChildMenu m root in
          let upperLeft := rowUpperLeft m root in
          let inUpperBufferTriangle :=
            if disableBufferTriangles m then false
            else pointInTriangle (mousePosition m) (upperBufferTriangle m root) in
          let inLowerBufferTriangle :=
            if disableBufferTriangles m then false
            else pointInTriangle (mousePosition m) (lowerBufferTriangle m root) in
          let inChildBuffer :=
            pointInBox (mousePosition m)
              (add (position m) (vec2 (x sz - 15) (computedOffset root - 35)))
              (add childSize (vec2 30 50)) in
          if inRootOption || inChild || inUpperBufferTriangle
             || inLowerBufferTriangle || inChildBuffer
          then
            if inChild then
              Some (fold_left
                      (fun result c =>
                         if inChildRow m upperLeft c then result ++ [root; c]
                         else result)
                      (children root) [],
                    withDisableBufferTriangles true m)
            else Some ([root], m)
          else None
      end
  end.

(** The state of the scan of the whole tree: the path built so far, the
    menu, and the number of clock readings taken so far. *)
Record Scan : Type := mkScan { result : list MenuOption; self : Menu; ticks : nat }.

Section Rescan.

(** [clock k] is the value of the [k]-th reading of [new Date().valueOf()]
    taken during the call. *)
Variable clock : nat -> Z.

Definition visitChild (upperLeft : Vec2) (v c : MenuOption) (s : Scan) : Scan :=
  if inChildRow (self s) upperLeft c then
    mkScan (result s ++ [v; c]) (withDisableBufferTriangles true (self s)) (ticks s)
  else s.

(** The timer: start it when the buffers are disabled and the root has
    changed, enable the buffers after 500 milliseconds. *)
Definition enterRoot (now : Z) (v : MenuOption) (m : Menu) : Menu :=
  let m1 :=
    if disableBufferTriangles m && differsFromFirst v (optionPath m)
    then withTimestamp now m else m in
  if 500 <? now - enteredRootElementTimestamp m1
  then withDisableBufferTriangles false m1 else m1.

Definition visitRoot (v : MenuOption) (s : Scan) : Scan :=
  let m := self s in
  let upperLeft := rowUpperLeft m v in
  let s1 :=
    if pointInBox (mousePosition m) upperLeft (vec2 MenuWidth (offsetOf v)) then
      mkScan (result s ++ [v]) (enterRoot (clock (ticks s)) v m) (S (ticks s))
    else s in
  fold_left (fun a c => visitChild upperLeft v c a) (children v) s1.

Definition fullRescan (m : Menu) : list MenuOption * Menu :=
  let s := fold_left (fun a v => visitRoot v a) (options (tree m))
             (mkScan [] m 0%nat) in
  (result s, self s).

Definition optionPathUnderMouse (m : Menu) : list MenuOption * Menu :=
  match stickySubmenu m with
  | Some r => r
  | None => fullRescan m
  end.

(** ** The controller *)

Definition click (m : Menu) (v : Vec2) : string * Menu :=
  if visible m then
    let (path, m1) := optionPathUnderMouse (withMousePosition v m) in
    let m2 := withOptionPath path m1 in
    match path with
    | [] => ("", m2)
    | first :: _ =>
        let sel := last path first in
        if (Nat.eqb (List.length path) 1 && sameObject first sel
            && Nat.eqb (List.length (children first)) 0)
           || Nat.eqb (List.length path) 2
        then (if enabled sel then action sel else "", hide m2)
        else ("", m2)
    end
  else ("", m).

Definition setMousePosition (m : Menu) (v : Vec2) : Menu :=
  let m0 := withMousePosition v m in
  if negb (visible m0) then withOptionPath [] m0
  else
    let (path, m1) := optionPathUnderMouse m0 in
    let m2 := withOptionPath path m1 in
    match path with
    | [] =>
        if negb (pointInBox (mousePosition m2)
                   (add (position m2) (vec2 (-40) (-40)))
                   (add (size (options (tree m2))) (vec2 80 150)))
        then hide m2 else m2
    | _ :: _ => m2
    end.

End Rescan.

Definition setPosition (parent : State) (m : Menu) (v : Vec2) : Menu :=
  let m1 := withPosition (vec2 (x v) (y v)) (vec2 (x v) (y v)) m in
  if x (bounds parent) <? x (position m1) + MenuWidth * 2 + PropertiesWidth
  then withPosition (vec2 (x (position m1) - MenuWidth) (y (position m1)))
         (mousePositionOnOpen m1) m1
  else m1.

End Controller.

(** ** Notions used in the statements *)

(** What the hit test leaves alone: it writes the buffer flag and the
    timestamp only. *)
Definition hitTestFrame (m m' : Menu) : Prop :=
  position m' = position m /\
  mousePosition m' = mousePosition m /\
  mousePositionOnOpen m' = mousePositionOnOpen m /\
  tree m' = tree m /\
  visible m' = visible m /\
  optionPath m' = optionPath m /\
  nextObject m' = nextObject m.

(** The option a click acts on: the root of a path of length 1 when it has
    no children, the child of a path of length 2. *)
Definition resolvedSelection (path : list MenuOption) : option MenuOption :=
  match path with
  | [root] => match children root with [] => Some root | _ :: _ => None end
  | [_; child] => Some child
  | _ => None
  end.

(** The box around the menu inside which an empty path does not dismiss
    it, written out. *)
Definition inPaddedBox (MenuWidth : Z) (m : Menu) (v : Vec2) : Prop :=
  x (position m) - 40 <= x v < x (position m) - 40 + (MenuWidth + 80) /\
  y (position m) - 40 <= y v
    < y (position m) - 40 + (y (size MenuWidth (options (tree m))) + 150).

(** Horizontal and vertical extent of a triangle. *)
Definition triangleWidth (t : Triangle) : Z :=
  let '(a, b, c) := t in
  Z.max (x a) (Z.max (x b) (x c)) - Z.min (x a) (Z.min (x b) (x c)).

Definition triangleHeight (t : Triangle) : Z :=
  let '(a, b, c) := t in
  Z.max (y a) (Z.max (y b) (y c)) - Z.min (y a) (Z.min (y b) (y c)).

(** Induction over an option together with all the options below it. *)
Fixpoint MenuOption_nested_ind (P : MenuOption -> Prop)
    (step : forall i t l a s ch off e,
        Forall P ch -> P (mkMenuOption i t l a s ch off e))
    (v : MenuOption) {struct v} : P v :=
  match v with
  | mkMenuOption i t l a s ch off e =>
      step i t l a s ch off e
        ((fix all (os : list MenuOption) : Forall P os :=
            match os with
            | [] => Forall_nil P
            | c :: rest =>
                Forall_cons c (MenuOption_nested_ind P step c) (all rest)
            end) ch)
  end.

(** ** The hits of the scan, as functions of the pointer alone *)

Section Hits.

Variable MenuWidth : Z.

(** The pointer is in the row of the root option [v]. *)
Definition hitRoot (m : Menu) (v : MenuOption) : bool :=
  pointInBox (mousePosition m) (rowUpperLeft m v) (vec2 MenuWidth (offsetOf v)).

(** The pointer is in the row of the child [c] of the root option [v]. *)
Definition hitChild (m : Menu) (v c : MenuOption) : bool :=
  inChildRow MenuWidth m (rowUpperLeft m v) c.

(** What the visit of one root option appends to the path. *)
Definition hitsAt (m : Menu) (v : MenuOption) : list MenuOption :=
  (if hitRoot m v then [v] else [])
  ++ flat_map (fun c => if hitChild m v c then [v; c] else []) (children v).

End Hits.

(** ** Rows that do not overlap *)

(** A row is given by the offset of its upper edge and its height; two
    rows are apart when one ends before the other begins. *)
Definition disjointRows (a b : Z * Z) : bool :=
  (fst a + snd a <=? fst b) || (fst b + snd b <=? fst a).

Fixpoint pairwise {A : Type} (R : A -> A -> bool) (l : list A) : bool :=
  match l with
  | [] => true
  | a :: rest => forallb (R a) rest && pairwise R rest
  end.

Definition rootRow (v : MenuOption) : Z * Z := (computedOffset v, offsetOf v).

(** The row of the child [c] of the root option [v], measured like the
    rows of the root options: the submenu of [v] starts at the offset of
    [v]. *)
Definition childRow (v c : MenuOption) : Z * Z :=
  (computedOffset v + computedOffset c, offsetOf c).

(** Every root option with each of its children, in the order of the
    scan. *)
Definition submenuPairs (os : list MenuOption) : list (MenuOption * MenuOption) :=
  flat_map (fun v => map (pair v) (children v)) os.

(** The rows of the root options are pairwise apart, and so are the rows
    of all the children of all the root options. *)
Definition nonOverlapping (os : list MenuOption) : bool :=
  pairwise disjointRows (map rootRow os)
  && pairwise disjointRows
       (map (fun p => childRow (fst p) (snd p)) (submenuPairs os)).

Definition childrenApart (root : MenuOption) : Prop :=
  pairwise disjointRows (map (childRow root) (children root)) = true.

(** The shape of a selection path: empty, a root option, or a root option
    followed by one of its children. *)
Definition pathShape (path : list MenuOption) : Prop :=
  path = [] \/
  (exists root, path = [root]) \/
  (exists root child, path = [root; child] /\ In child (children root)).

(** The shape that the hit test maintains: in addition the rows of the
    submenu of the root are apart. *)
Definition pathWellFormed (path : list MenuOption) : Prop :=
  match path with
  | [] => True
  | [root] => childrenApart root
  | [root; child] => In child (children root) /\ childrenApart root
  | _ => False
  end.

(** ** Reachable states *)

Section Reachability.

Variable MenuWidth : Z.
Variable PropertiesWidth : Z.
Variable StateActionKeys : ActionKeys.
Variable shortcuts : list (string * string).

(** Which trees the host passes to [setOptionTree]. *)
Variable admissible : OptionTree -> Prop.

Inductive reachable : Menu -> Prop :=
| reach_construct (parent : State) :
    reachable (construct StateActionKeys shortcuts parent)
| reach_show (parent : State) (m : Menu) :
    reachable m -> reachable (show StateActionKeys shortcuts parent m)
| reach_hide (m : Menu) :
    reachable m -> reachable (hide m)
| reach_setOptionTree (t : OptionTree) (m : Menu) :
    admissible t -> reachable m -> reachable (setOptionTree t m)
| reach_setPosition (parent : State) (m : Menu) (v : Vec2) :
    reachable m -> reachable (setPosition MenuWidth PropertiesWidth parent m v)
| reach_setMousePosition (clock : nat -> Z) (m : Menu) (v : Vec2) :
    reachable m -> reachable (setMousePosition MenuWidth clock m v)
| reach_click (clock : nat -> Z) (m : Menu) (v : Vec2) :
    reachable m -> reachable (snd (click MenuWidth clock m v)).

End Reachability.

(** The trees whose rows do not overlap. *)
Definition apartTree (t : OptionTree) : Prop := nonOverlapping (options t) = true.

(** The invariant of the controller when every tree has rows that are
    apart. *)
Definition wellFormedMenu (m : Menu) : Prop :=
  nonOverlapping (options (tree m)) = true /\ pathWellFormed (optionPath m).

(** ** A concrete menu, used to run the definitions *)

Definition demoKeys : ActionKeys :=
  mkActionKeys "copy" "guideFrame" "guideValue" "linear" "beizer" "insert"
    "insertAll" "snapFrame" "snapValue".

Definition demoParent : State :=
  mkState (Some (mkSelected true false)) (vec2 2000 1000).

Definition demoClock (k : nat) : Z := 1000.

(** The menu after construction, [show] and [setPosition] at (100, 100),
    with a column width of 200. *)
Definition demoOpen : Menu :=
  setPosition 200 300 demoParent
    (show demoKeys [] demoParent (construct demoKeys [] demoParent))
    (vec2 100 100).

(** The pointer then rests on the row of the root option "Snap". *)
Definition demoOnSnap : Menu :=
  setMousePosition 200 demoClock demoOpen (vec2 150 253).

(** The root option "Snap" of the concrete menu. *)
Definition demoSnap : MenuOption := nth 10 (options (tree demoOpen)) (spacer 0).

(** The pointer then moves into the two pixels at the top of the submenu
    of "Snap", above the row of its first child. *)
Definition demoInGap : Menu := withMousePosition (vec2 305 248) demoOnSnap.

(** The menu as constructed, not yet shown. *)
Definition demoClosed : Menu := construct demoKeys [] demoParent.

(** The tree of the scenario of the spec: a header, a spacer, a disabled
    option and an option with two children. *)
Definition scenarioTree : OptionTree :=
  mkOptionTree
    (computeOffsetForOptions
       [ header 200 "H";
         spacer 201;
         simpleOption [] 202 "Copy" "copy" false [];
         simpleOption [] 205 "Snap" "" true
           [ simpleOption [] 203 "A" "actionA" true [];
             simpleOption [] 204 "B" "actionB" true [] ] ]).

Definition scenarioMenu : Menu :=
  setOptionTree scenarioTree (show demoKeys [] demoParent demoClosed).

(** Two neighbouring root options with two children each, laid out. *)
Definition twinSubmenus : OptionTree :=
  mkOptionTree
    (computeOffsetForOptions
       [ simpleOption [] 102 "First" "" true
           [ simpleOption [] 100 "First A" "a1" true [];
             simpleOption [] 101 "First B" "a2" true [] ];
         simpleOption [] 105 "Second" "" true
           [ simpleOption [] 103 "Second A" "b1" true [];
             simpleOption [] 104 "Second B" "b2" true [] ] ]).

(** The menu is constructed and shown, the host installs [twinSubmenus],
    and the pointer moves into the column of the submenus. *)
Definition demoTwin : Menu :=
  setMousePosition 200 demoClock
    (setOptionTree twinSubmenus
       (show demoKeys [] demoParent (construct demoKeys [] demoParent)))
    (vec2 205 30).

(** ** Further notions: triangles and the regions of the sticky submenu *)

(** Twice the signed area of the parallelogram spanned by two vectors. *)
Definition cross (a b : Vec2) : Z := x a * y b - y a * x b.

(** Twice the signed area of a triangle. *)
Definition doubleArea (t : Triangle) : Z :=
  let '(t0, t1, t2) := t in cross (sub t1 t0) (sub t2 t0).

Section Regions.

Variable MenuWidth : Z.

(** The first region of the sticky submenu: the box of the root option.
    It starts ten pixels below the row that the scan of the whole tree
    tests for the same option. *)
Definition inRootOption (m : Menu) (root : MenuOption) : bool :=
  pointInBox (mousePosition m)
    (vec2 (x (position m)) (y (position m) + computedOffset root))
    (vec2 (x (size MenuWidth (options (tree m)))) (offsetOf root)).

(** The two buffer triangles, which count only while they are enabled. *)
Definition inBufferTriangles (m : Menu) (root : MenuOption) : bool :=
  negb (disableBufferTriangles m)
  && (pointInTriangle (mousePosition m) (upperBufferTriangle MenuWidth m root)
      || pointInTriangle (mousePosition m) (lowerBufferTriangle MenuWidth m root)).

(** The padded box around the submenu. *)
Definition inChildBuffer (m : Menu) (root : MenuOption) : bool :=
  pointInBox (mousePosition m)
    (add (position m)
       (vec2 (x (size MenuWidth (options (tree m))) - 15)
          (computedOffset root - 35)))
    (add (size MenuWidth (children root)) (vec2 30 50)).

(** The union of the five regions in which the root stays selected. *)
Definition stickyRegion (m : Menu) (root : MenuOption) : bool :=
  inRootOption m root || inChildMenu MenuWidth m root
  || inBufferTriangles m root || inChildBuffer m root.

End Regions.

(** Whether the host has a point selected, as [rebuildOptions] reads it. *)
Definition hasSelectedPoint (parent : State) : bool :=
  match selected parent with Some s => point s | None => false end.

(** Every option object the menu holds on to was allocated before: the
    root options of the tree and the first option of the path have
    identities below the next one to be handed out. *)
Definition objectsAllocated (m : Menu) : Prop :=
  (forall r, In r (options (tree m)) -> (oid r < nextObject m)%nat) /\
  match optionPath m with
  | [] => True
  | r :: _ => (oid r < nextObject m)%nat
  end.

(** The host never installs a tree of its own. *)
Definition noExternalTree (t : OptionTree) : Prop := False.

(** The menu with its anchor and the pointer moved by the same vector. *)
Definition moveBy (d : Vec2) (m : Menu) : Menu :=
  withPosition (add (position m) d) (mousePositionOnOpen m)
    (withMousePosition (add (mousePosition m) d) m).

Definition moveScanBy (d : Vec2) (s : Scan) : Scan :=
  mkScan (result s) (moveBy d (self s)) (ticks s).

(** The menu with its anchor moved. *)
Definition anchorBy (d : Vec2) (m : Menu) : Menu :=
  withPosition (add (position m) d) (mousePositionOnOpen m) m.

(** More of the concrete menu: the childless root option "Move frame
    guide", and two children of "Snap". *)
Definition demoMoveFrame : MenuOption :=
  nth 4 (options (tree demoOpen)) (spacer 0).

Definition demoSnapFrame : MenuOption := nth 2 (children demoSnap) (spacer 0).

Definition demoSnapValue : MenuOption := nth 3 (children demoSnap) (spacer 0).

Definition demoLater (k : nat) : Z := 1600.


(** * Properties *)

Section Properties.

Variable MenuWidth : Z.
Variable PropertiesWidth : Z.
Variable StateActionKeys : ActionKeys.
Variable shortcuts : list (string * string).
Variable clock : nat -> Z.

(** ** Generic facts *)

Lemma fold_left_invariant (A B : Type) (P : A -> Prop) (f : A -> B -> A) :
  (forall a b, P a -> P (f a b)) ->
  forall l a, P a -> P (fold_left f l a).
Proof.
  intros step l; induction l as [|b l IH]; intros a Ha; simpl; auto.
Qed.

Lemma hitTestFrame_refl m : hitTestFrame m m.
Proof. unfold hitTestFrame; intuition reflexivity. Qed.

Lemma hitTestFrame_trans m1 m2 m3 :
  hitTestFrame m1 m2 -> hitTestFrame m2 m3 -> hitTestFrame m1 m3.
Proof.
  unfold hitTestFrame; intros H12 H23.
  decompose [and] H12; decompose [and] H23.
  repeat split; etransitivity; eassumption.
Qed.

Lemma frame_withDisable b m : hitTestFrame m (withDisableBufferTriangles b m).
Proof. unfold hitTestFrame; simpl; intuition reflexivity. Qed.

Lemma frame_withTimestamp t m : hitTestFrame m (withTimestamp t m).
Proof. unfold hitTestFrame; simpl; intuition reflexivity. Qed.

Lemma frame_enterRoot now v m : hitTestFrame m (enterRoot now v m).
Proof.
  unfold enterRoot.
  destruct (disableBufferTriangles m && differsFromFirst v (optionPath m));
    match goal with |- context [if ?c then _ else _] => destruct c end;
    eauto using hitTestFrame_refl, hitTestFrame_trans, frame_withDisable,
      frame_withTimestamp.
Qed.

Lemma frame_visitChild m ul v c s :
  hitTestFrame m (self s) ->
  hitTestFrame m (self (visitChild MenuWidth ul v c s)).
Proof.
  intros H; unfold visitChild.
  destruct (inChildRow MenuWidth (self s) ul c); simpl; [|exact H].
  eapply hitTestFrame_trans; [exact H | apply frame_withDisable].
Qed.

Lemma frame_visitRoot m v s :
  hitTestFrame m (self s) ->
  hitTestFrame m (self (visitRoot MenuWidth clock v s)).
Proof.
  intros H; unfold visitRoot.
  apply fold_left_invariant with (P := fun a => hitTestFrame m (self a)).
  - intros a c Ha; apply frame_visitChild; exact Ha.
  - match goal with |- context [if ?c then _ else _] => destruct c end;
      simpl; [|exact H].
    eapply hitTestFrame_trans; [exact H | apply frame_enterRoot].
Qed.

Lemma frame_fullRescan m :
  hitTestFrame m (snd (fullRescan MenuWidth clock m)).
Proof.
  unfold fullRescan; simpl.
  apply fold_left_invariant with (P := fun a => hitTestFrame m (self a)).
  - intros a v Ha; apply frame_visitRoot; exact Ha.
  - apply hitTestFrame_refl.
Qed.

Lemma stickySubmenu_cases m r :
  stickySubmenu MenuWidth m = Some r ->
  exists root rest,
    optionPath m = root :: rest /\ children root <> [] /\
    ((inChildMenu MenuWidth m root = true /\
      r = (fold_left
             (fun res c =>
                if inChildRow MenuWidth m (rowUpperLeft m root) c
                then res ++ [root; c] else res)
             (children root) [],
           withDisableBufferTriangles true m)) \/
     (inChildMenu MenuWidth m root = false /\ r = ([root], m))).
Proof.
  unfold stickySubmenu.
  destruct (optionPath m) as [|root rest]; [discriminate|].
  destruct (children root) as [|c0 cs] eqn:Hch; [discriminate|].
  rewrite <- Hch.
  match goal with |- context [if ?c then _ else None] => destruct c end;
    [|discriminate].
  intros H; exists root, rest; split; [reflexivity|].
  split; [rewrite Hch; discriminate|].
  destruct (inChildMenu MenuWidth m root); inversion H; subst; auto.
Qed.

Lemma frame_optionPathUnderMouse m :
  hitTestFrame m (snd (optionPathUnderMouse MenuWidth clock m)).
Proof.
  unfold optionPathUnderMouse.
  destruct (stickySubmenu MenuWidth m) as [r|] eqn:Hs.
  - apply stickySubmenu_cases in Hs.
    destruct Hs as (root & rest & _ & _ & [[_ ->] | [_ ->]]); simpl.
    + apply frame_withDisable.
    + apply hitTestFrame_refl.
  - apply frame_fullRescan.
Qed.

(** ** Geometry *)

Lemma pointInBox_spec pt ul sz :
  pointInBox pt ul sz = true <->
  0 <= x pt - x ul < x sz /\ 0 <= y pt - y ul < y sz.
Proof.
  unfold pointInBox, sub; simpl.
  rewrite !andb_true_iff, !Z.ltb_lt, !Z.leb_le. lia.
Qed.

(** C5. [pointInBox] holds exactly when the horizontal distance of the
    point from the corner lies in [0, size.x) and the vertical distance in
    [0, size.y); a point on the right or on the lower boundary is
    outside. *)
Theorem pointInBox_half_open :
  forall pt upperLeft sz : Vec2,
    (pointInBox pt upperLeft sz = true <->
     0 <= x pt - x upperLeft < x sz /\ 0 <= y pt - y upperLeft < y sz) /\
    (forall py, pointInBox (vec2 (x upperLeft + x sz) py) upperLeft sz = false) /\
    (forall px, pointInBox (vec2 px (y upperLeft + y sz)) upperLeft sz = false).
Proof.
  intros pt ul sz; split; [apply pointInBox_spec|].
  split; intros p; apply not_true_is_false; rewrite pointInBox_spec; simpl; lia.
Qed.

(** ** The controller *)

Lemma click_invisible m v :
  visible m = false -> click MenuWidth clock m v = ("", m).
Proof. intros H; unfold click; rewrite H; reflexivity. Qed.

Lemma click_visible m v :
  visible m = true ->
  let hit := optionPathUnderMouse MenuWidth clock (withMousePosition v m) in
  click MenuWidth clock m v =
  match resolvedSelection (fst hit) with
  | Some sel =>
      (if enabled sel then action sel else "",
       hide (withOptionPath (fst hit) (snd hit)))
  | None => ("", withOptionPath (fst hit) (snd hit))
  end.
Proof.
  intros Hv hit; unfold click; rewrite Hv; subst hit.
  destruct (optionPathUnderMouse MenuWidth clock (withMousePosition v m))
    as [path m1]; simpl fst; simpl snd.
  destruct path as [|r [|c [|d rest]]]; simpl; try reflexivity.
  unfold sameObject; rewrite Nat.eqb_refl; simpl.
  destruct (children r); reflexivity.
Qed.

(** C1. On a visible menu [click] recomputes the path; it hides the menu
    exactly when the path is a resolved selection (one childless root, or
    a root and a child), and then returns the action of the selected
    option if that option is enabled and the empty string if not; for
    every other path it returns the empty string and the menu stays
    visible.  On a menu that is not visible it returns the empty string
    and the menu stays as it is. *)
Theorem click_resolves_selection :
  forall (m : Menu) (v : Vec2),
    let path := fst (optionPathUnderMouse MenuWidth clock (withMousePosition v m)) in
    let answer := fst (click MenuWidth clock m v) in
    let after := snd (click MenuWidth clock m v) in
    if visible m then
      optionPath after = path /\
      match resolvedSelection path with
      | Some sel =>
          visible after = false /\
          answer = (if enabled sel then action sel else "")
      | None => visible after = true /\ answer = ""
      end
    else answer = "" /\ after = m.
Proof.
  intros m v path answer after; subst path answer after.
  destruct (visible m) eqn:Hv.
  - rewrite (click_visible m v Hv); cbv zeta.
    pose proof (frame_optionPathUnderMouse (withMousePosition v m)) as F.
    destruct F as (_ & _ & _ & _ & Fv & _).
    destruct (optionPathUnderMouse MenuWidth clock (withMousePosition v m))
      as [path m1]; simpl in *.
    destruct (resolvedSelection path); simpl; auto.
    rewrite Fv; auto.
  - rewrite (click_invisible m v Hv); auto.
Qed.

(** C3 (as the code has it). [hide] clears the [visible] flag and nothing
    else: the selection path survives it, and is cleared by the next
    [setMousePosition] on the hidden menu. *)
Theorem hide_keeps_path :
  forall (m : Menu),
    visible (hide m) = false /\
    optionPath (hide m) = optionPath m /\
    position (hide m) = position m /\
    mousePosition (hide m) = mousePosition m /\
    mousePositionOnOpen (hide m) = mousePositionOnOpen m /\
    tree (hide m) = tree m /\
    disableBufferTriangles (hide m) = disableBufferTriangles m /\
    enteredRootElementTimestamp (hide m) = enteredRootElementTimestamp m /\
    forall v, optionPath (setMousePosition MenuWidth clock (hide m) v) = [].
Proof.
  intros m; unfold hide; simpl; intuition reflexivity.
Qed.

(** C9. On a menu that is not visible [click] returns the empty string and
    leaves every field of the menu as it was, whereas [setMousePosition]
    records the pointer and empties the path. *)
Theorem click_invisible_noop :
  forall (m : Menu) (v : Vec2),
    visible m = false ->
    click MenuWidth clock m v = ("", m) /\
    setMousePosition MenuWidth clock m v
      = withOptionPath [] (withMousePosition v m).
Proof.
  intros m v H; split; [apply click_invisible; exact H|].
  unfold setMousePosition; simpl; rewrite H; reflexivity.
Qed.

Lemma size_x os : x (size MenuWidth os) = MenuWidth.
Proof. reflexivity. Qed.

Lemma heights_from (os : list MenuOption) :
  forall a, a <= fold_left (fun height v => height + offsetOf v) os a.
Proof.
  induction os as [|v os IH]; intros a; simpl; [lia|].
  specialize (IH (a + offsetOf v)).
  assert (0 < offsetOf v) by (unfold offsetOf; destruct (type v); lia).
  lia.
Qed.

Lemma size_y_nonneg os : 0 <= y (size MenuWidth os).
Proof. apply heights_from. Qed.

(** C6. On a visible menu for which the hit test yields the empty path,
    [setMousePosition] hides the menu exactly when the pointer is outside
    the box whose corner is the anchor minus (40, 40) and whose size is
    the size of the menu plus (80, 150); inside it the menu stays
    visible. *)
Theorem auto_dismiss_outside_padded_box :
  forall (m : Menu) (v : Vec2),
    visible m = true ->
    fst (optionPathUnderMouse MenuWidth clock (withMousePosition v m)) = [] ->
    (visible (setMousePosition MenuWidth clock m v) = false
       <-> ~ inPaddedBox MenuWidth m v) /\
    (visible (setMousePosition MenuWidth clock m v) = true
       <-> inPaddedBox MenuWidth m v) /\
    (visible (setMousePosition MenuWidth clock m v)
       = pointInBox v (add (position m) (vec2 (-40) (-40)))
           (add (size MenuWidth (options (tree m))) (vec2 80 150))).
Proof.
  intros m v Hv Hp.
  pose proof (frame_optionPathUnderMouse (withMousePosition v m)) as F.
  destruct F as (Fp & Fm & _ & Ft & Fv & _).
  assert (E : visible (setMousePosition MenuWidth clock m v)
              = pointInBox v (add (position m) (vec2 (-40) (-40)))
                  (add (size MenuWidth (options (tree m))) (vec2 80 150))).
  { unfold setMousePosition; simpl; rewrite Hv; simpl.
    destruct (optionPathUnderMouse MenuWidth clock (withMousePosition v m))
      as [path m1]; simpl in *; subst path; simpl.
    rewrite Fp, Fm, Ft.
    destruct (pointInBox v _ _); simpl; congruence. }
  assert (B : pointInBox v (add (position m) (vec2 (-40) (-40)))
                (add (size MenuWidth (options (tree m))) (vec2 80 150)) = true
              <-> inPaddedBox MenuWidth m v).
  { rewrite pointInBox_spec; unfold inPaddedBox; simpl; lia. }
  rewrite E; repeat split; try (apply B); try tauto.
  - intros H I; apply B in I; congruence.
  - intros H; apply not_true_is_false; tauto.
Qed.

(** ** The sticky submenu *)

Lemma no_child_row_hit m ul root (cs : list MenuOption) :
  (forall c, In c cs -> inChildRow MenuWidth m ul c = false) ->
  forall acc,
    fold_left
      (fun res c => if inChildRow MenuWidth m ul c then res ++ [root; c] else res)
      cs acc = acc.
Proof.
  induction cs as [|c cs IH]; intros H acc; simpl; [reflexivity|].
  rewrite (H c) by (left; reflexivity).
  apply IH; intros d Hd; apply H; right; exact Hd.
Qed.

Lemma stickySubmenu_in_child_menu m root rest :
  optionPath m = root :: rest ->
  children root <> [] ->
  inChildMenu MenuWidth m root = true ->
  stickySubmenu MenuWidth m =
  Some (fold_left
          (fun res c =>
             if inChildRow MenuWidth m (rowUpperLeft m root) c
             then res ++ [root; c] else res)
          (children root) [],
        withDisableBufferTriangles true m).
Proof.
  intros Hp Hc Hin; unfold stickySubmenu; rewrite Hp.
  destruct (children root) as [|c0 cs] eqn:Hch; [contradiction|].
  rewrite <- Hch, Hin, orb_true_r; reflexivity.
Qed.

(** C10. With the submenu of the previous root open, a pointer inside the
    box of the submenu but inside the row of none of its children yields
    the empty path, and the buffer triangles are disabled. *)
Theorem submenu_gap_yields_empty_path :
  forall (m : Menu) (root : MenuOption) (rest : list MenuOption),
    optionPath m = root :: rest ->
    children root <> [] ->
    inChildMenu MenuWidth m root = true ->
    (forall c, In c (children root) ->
               inChildRow MenuWidth m (rowUpperLeft m root) c = false) ->
    optionPathUnderMouse MenuWidth clock m
      = ([], withDisableBufferTriangles true m) /\
    fst (optionPathUnderMouse MenuWidth clock m) <> [root] /\
    disableBufferTriangles (snd (optionPathUnderMouse MenuWidth clock m)) = true.
Proof.
  intros m root rest Hp Hc Hin Hrows.
  assert (E : optionPathUnderMouse MenuWidth clock m
              = ([], withDisableBufferTriangles true m)).
  { unfold optionPathUnderMouse.
    rewrite (stickySubmenu_in_child_menu m root rest Hp Hc Hin).
    rewrite (no_child_row_hit m _ root _ Hrows); reflexivity. }
  rewrite E; simpl; repeat split; discriminate.
Qed.

(** C4 (as the code has it). Both buffer triangles span the width of the
    menu column.  The upper one is 15 pixels high; the lower one is as
    high as the submenu of the root. *)
Theorem buffer_triangle_extents :
  forall (m : Menu) (root : MenuOption),
    0 <= MenuWidth ->
    triangleWidth (upperBufferTriangle MenuWidth m root) = MenuWidth /\
    triangleHeight (upperBufferTriangle MenuWidth m root) = 15 /\
    triangleWidth (lowerBufferTriangle MenuWidth m root) = MenuWidth /\
    triangleHeight (lowerBufferTriangle MenuWidth m root)
      = y (size MenuWidth (children root)).
Proof.
  intros m root HW.
  pose proof (size_y_nonneg (children root)) as Hy.
  unfold upperBufferTriangle, lowerBufferTriangle, triangleWidth,
    triangleHeight, rowUpperLeft, add.
  cbn [x y size] in *.
  repeat split; lia.
Qed.

(** ** Layout *)

Lemma layoutOption_unfold height v :
  layoutOption height v =
  mkMenuOption (oid v) (type v) (label v) (action v) (shortcut v)
    (layoutFrom 12 (children v)) height (enabled v).
Proof. destruct v as [i t l a s [|c ch] off e]; reflexivity. Qed.

Lemma offsetOf_layoutOption height v :
  offsetOf (layoutOption height v) = offsetOf v.
Proof. rewrite layoutOption_unfold; reflexivity. Qed.

Lemma layoutFrom_twice (os : list MenuOption) :
  Forall (fun c => forall h h', layoutOption h (layoutOption h' c)
                                = layoutOption h c) os ->
  forall a, layoutFrom a (layoutFrom a os) = layoutFrom a os.
Proof.
  induction 1 as [|c rest Hc _ IH]; intros a; simpl; [reflexivity|].
  rewrite Hc, offsetOf_layoutOption, IH; reflexivity.
Qed.

Lemma layoutOption_twice (v : MenuOption) :
  forall h h', layoutOption h (layoutOption h' v) = layoutOption h v.
Proof.
  induction v as [i t l a s ch off e IH] using MenuOption_nested_ind.
  intros h h'.
  rewrite (layoutOption_unfold h'); cbn [oid type label action shortcut children enabled].
  rewrite (layoutOption_unfold h (mkMenuOption i t l a s (layoutFrom 12 ch) h' e)).
  rewrite (layoutOption_unfold h (mkMenuOption i t l a s ch off e)).
  cbn [oid type label action shortcut children enabled].
  rewrite (layoutFrom_twice ch IH); reflexivity.
Qed.

(** C8. Laying out a tree that has just been laid out changes nothing:
    every option, at every level, keeps the offset the first pass gave
    it. *)
Theorem layout_idempotent :
  forall os : list MenuOption,
    computeOffsetForOptions (computeOffsetForOptions os)
      = computeOffsetForOptions os.
Proof.
  intros os; unfold computeOffsetForOptions.
  apply layoutFrom_twice.
  apply Forall_forall; intros c _; apply layoutOption_twice.
Qed.

Lemma layoutFrom_offsets (os : list MenuOption) :
  forall h c, In c (layoutFrom h os) -> h <= computedOffset c.
Proof.
  induction os as [|v os IH]; intros h c; simpl; [contradiction|].
  intros [<-|H].
  - rewrite layoutOption_unfold; simpl; lia.
  - apply IH in H.
    assert (0 < offsetOf v) by (unfold offsetOf; destruct (type v); lia).
    lia.
Qed.

(** The gap of C10 exists in every submenu that has been laid out: its
    rows start at 12, hence two pixels below the upper edge of its box. *)
Lemma submenu_top_band m root :
  children root <> [] ->
  (exists cs, children root = computeOffsetForOptions cs) ->
  0 <= x (mousePosition m) - x (position m) - MenuWidth < MenuWidth ->
  0 <= y (mousePosition m) - (y (position m) + computedOffset root - 10) < 2 ->
  inChildMenu MenuWidth m root = true /\
  forall c, In c (children root) ->
            inChildRow MenuWidth m (rowUpperLeft m root) c = false.
Proof.
  intros Hne (cs & Hcs) Hx Hy; split.
  - unfold inChildMenu; apply pointInBox_spec; unfold add; simpl.
    assert (2 <= fold_left (fun height v => height + offsetOf v) (children root) 0).
    { destruct (children root) as [|c rest]; [contradiction|]; simpl.
      pose proof (heights_from rest (0 + offsetOf c)) as Hh.
      rewrite Z.add_0_l in Hh.
      assert (2 <= offsetOf c) by (unfold offsetOf; destruct (type c); lia).
      lia. }
    lia.
  - intros c Hc; rewrite Hcs in Hc; apply layoutFrom_offsets in Hc.
    apply not_true_is_false; unfold inChildRow; rewrite pointInBox_spec.
    unfold rowUpperLeft, add; simpl; lia.
Qed.

(** ** The scan of the whole tree *)

Lemma hitRoot_frame m m' v :
  hitTestFrame m m' -> hitRoot MenuWidth m' v = hitRoot MenuWidth m v.
Proof.
  intros (Hp & Hm & _); unfold hitRoot, rowUpperLeft; rewrite Hp, Hm; reflexivity.
Qed.

Lemma inChildRow_frame m m' ul c :
  hitTestFrame m m' -> inChildRow MenuWidth m' ul c = inChildRow MenuWidth m ul c.
Proof. intros (_ & Hm & _); unfold inChildRow; rewrite Hm; reflexivity. Qed.

Lemma rowUpperLeft_frame m m' v :
  hitTestFrame m m' -> rowUpperLeft m' v = rowUpperLeft m v.
Proof. intros (Hp & _); unfold rowUpperLeft; rewrite Hp; reflexivity. Qed.

(** A pointer in the row of a root option is left of every submenu, and a
    pointer in the row of a child is right of every root row. *)
Lemma columns_exclusive m u v c :
  hitRoot MenuWidth m u = true -> hitChild MenuWidth m v c = false.
Proof.
  unfold hitRoot, hitChild, inChildRow; intros H.
  apply pointInBox_spec in H; apply not_true_is_false; intros K.
  apply pointInBox_spec in K.
  unfold rowUpperLeft, add in *; simpl in *; lia.
Qed.

Lemma visitChildren_result m ul v (cs : list MenuOption) :
  forall s,
    hitTestFrame m (self s) ->
    let s' := fold_left (fun a c => visitChild MenuWidth ul v c a) cs s in
    result s' = result s
                ++ flat_map (fun c => if inChildRow MenuWidth m ul c
                                      then [v; c] else []) cs /\
    ticks s' = ticks s.
Proof.
  induction cs as [|c cs IH]; intros s F; simpl.
  - rewrite app_nil_r; auto.
  - pose proof (frame_visitChild m ul v c s F) as F'.
    destruct (IH _ F') as [R T]; rewrite R, T; clear IH R T.
    unfold visitChild; rewrite (inChildRow_frame m (self s) ul c F).
    destruct (inChildRow MenuWidth m ul c); simpl; auto.
    rewrite <- app_assoc; auto.
Qed.

Lemma visitChildren_no_hit ul v (cs : list MenuOption) s :
  (forall c, In c cs -> inChildRow MenuWidth (self s) ul c = false) ->
  fold_left (fun a c => visitChild MenuWidth ul v c a) cs s = s.
Proof.
  revert s; induction cs as [|c cs IH]; intros s H; simpl; [reflexivity|].
  unfold visitChild at 2; rewrite (H c) by (left; reflexivity).
  apply IH; intros d Hd; apply H; right; exact Hd.
Qed.

Lemma visitRoot_hit v s :
  hitRoot MenuWidth (self s) v = true ->
  visitRoot MenuWidth clock v s
  = mkScan (result s ++ [v]) (enterRoot (clock (ticks s)) v (self s))
      (S (ticks s)).
Proof.
  intros H; unfold visitRoot; fold (hitRoot MenuWidth (self s) v); rewrite H.
  apply visitChildren_no_hit; intros c _; cbn [self].
  rewrite (inChildRow_frame (self s)) by apply frame_enterRoot.
  exact (columns_exclusive (self s) v v c H).
Qed.

Lemma visitRoot_result m v s :
  hitTestFrame m (self s) ->
  result (visitRoot MenuWidth clock v s) = result s ++ hitsAt MenuWidth m v.
Proof.
  intros F; unfold visitRoot, hitsAt.
  fold (hitRoot MenuWidth (self s) v).
  rewrite (hitRoot_frame m (self s) v F), (rowUpperLeft_frame m (self s) v F).
  fold (hitChild MenuWidth m v).
  destruct (hitRoot MenuWidth m v).
  - match goal with |- context [fold_left _ _ ?s1] =>
      destruct (visitChildren_result m (rowUpperLeft m v) v (children v) s1)
        as [R _]
    end.
    { cbn [self]; eapply hitTestFrame_trans; [exact F|apply frame_enterRoot]. }
    rewrite R; cbn [result]; rewrite <- app_assoc; reflexivity.
  - destruct (visitChildren_result m (rowUpperLeft m v) v (children v) s F)
      as [R _].
    rewrite R; reflexivity.
Qed.

Lemma rescan_result m (os : list MenuOption) :
  forall s,
    hitTestFrame m (self s) ->
    result (fold_left (fun a v => visitRoot MenuWidth clock v a) os s)
    = result s ++ flat_map (hitsAt MenuWidth m) os.
Proof.
  induction os as [|v os IH]; intros s F; simpl.
  - rewrite app_nil_r; reflexivity.
  - rewrite IH by (apply frame_visitRoot; exact F).
    rewrite (visitRoot_result m v s F), <- app_assoc; reflexivity.
Qed.

Lemma fullRescan_path m :
  fst (fullRescan MenuWidth clock m)
  = flat_map (hitsAt MenuWidth m) (options (tree m)).
Proof.
  unfold fullRescan; cbn [fst].
  rewrite (rescan_result m) by apply hitTestFrame_refl; reflexivity.
Qed.


(** ** At most one row under the pointer *)

Lemma flat_map_filter (A B : Type) (h : A -> bool) (f : A -> list B) (l : list A) :
  flat_map (fun a => if h a then f a else []) l = flat_map f (filter h l).
Proof.
  induction l as [|a l IH]; simpl; [reflexivity|].
  destruct (h a); simpl; rewrite IH; reflexivity.
Qed.

Lemma flat_map_all_nil (A B : Type) (f : A -> list B) (l : list A) :
  (forall a, In a l -> f a = []) -> flat_map f l = [].
Proof.
  induction l as [|a l IH]; intros H; simpl; [reflexivity|].
  rewrite (H a) by (left; reflexivity).
  apply IH; intros b Hb; apply H; right; exact Hb.
Qed.

Lemma pairwise_app (A : Type) (R : A -> A -> bool) (l1 l2 : list A) :
  pairwise R (l1 ++ l2) = true ->
  pairwise R l1 = true /\ pairwise R l2 = true.
Proof.
  induction l1 as [|a l1 IH]; simpl; intros H; [auto|].
  apply andb_true_iff in H; destruct H as [Ha H].
  rewrite forallb_app in Ha; apply andb_true_iff in Ha; destruct Ha as [Ha _].
  destruct (IH H) as [H1 H2]; rewrite Ha, H1; auto.
Qed.

Lemma pairwise_flat_map (A B : Type) (R : B -> B -> bool) (f : A -> list B)
    (l : list A) (a : A) :
  In a l -> pairwise R (flat_map f l) = true -> pairwise R (f a) = true.
Proof.
  induction l as [|b l IH]; simpl; intros Hin H; [contradiction|].
  apply pairwise_app in H; destruct H as [Hb Hl].
  destruct Hin as [->|Hin]; auto.
Qed.

Section OneRow.

Variable A : Type.
Variable row : A -> Z * Z.
Variable hit : A -> bool.
Variable t : Z.
Hypothesis hit_inside :
  forall a, hit a = true -> fst (row a) <= t < fst (row a) + snd (row a).

Lemma apart_not_hit (a : A) (l : list A) :
  hit a = true ->
  forallb (disjointRows (row a)) (map row l) = true ->
  filter hit l = [].
Proof.
  intros Ha; induction l as [|b l IH]; simpl; intros H; [reflexivity|].
  apply andb_true_iff in H; destruct H as [Hab Hl].
  destruct (hit b) eqn:Hb; [|auto].
  exfalso; apply hit_inside in Ha; apply hit_inside in Hb.
  unfold disjointRows in Hab; apply orb_true_iff in Hab.
  rewrite !Z.leb_le in Hab; lia.
Qed.

Lemma at_most_one_hit (l : list A) :
  pairwise disjointRows (map row l) = true ->
  filter hit l = [] \/ exists a, In a l /\ filter hit l = [a].
Proof.
  induction l as [|a l IH]; simpl; intros H; [left; reflexivity|].
  apply andb_true_iff in H; destruct H as [Ha Hl].
  destruct (hit a) eqn:Hh.
  - right; exists a; split; [left; reflexivity|].
    rewrite (apart_not_hit a l Hh Ha); reflexivity.
  - destruct (IH Hl) as [E|(b & Hb & E)]; [left; exact E|].
    right; exists b; split; [right; exact Hb | exact E].
Qed.

End OneRow.

Lemma hitRoot_inside m v :
  hitRoot MenuWidth m v = true ->
  fst (rootRow v) <= y (mousePosition m) - y (position m) + 10
    < fst (rootRow v) + snd (rootRow v).
Proof.
  unfold hitRoot; intros H; apply pointInBox_spec in H.
  unfold rowUpperLeft, rootRow in *; simpl in *; lia.
Qed.

Lemma hitChild_inside m v c :
  hitChild MenuWidth m v c = true ->
  fst (childRow v c) <= y (mousePosition m) - y (position m) + 20
    < fst (childRow v c) + snd (childRow v c).
Proof.
  unfold hitChild, inChildRow; intros H; apply pointInBox_spec in H.
  unfold rowUpperLeft, childRow, add in *; simpl in *; lia.
Qed.

Lemma in_submenuPairs os v c :
  In (v, c) (submenuPairs os) -> In v os /\ In c (children v).
Proof.
  unfold submenuPairs; intros H; apply in_flat_map in H.
  destruct H as (u & Hu & H); apply in_map_iff in H.
  destruct H as (d & E & Hd); inversion E; subst; auto.
Qed.

Lemma childrenApart_of_tree os v :
  nonOverlapping os = true -> In v os -> childrenApart v.
Proof.
  unfold nonOverlapping, childrenApart, submenuPairs; intros H Hv.
  apply andb_true_iff in H; destruct H as [_ H].
  assert (E : forall l,
             map (fun p : MenuOption * MenuOption => childRow (fst p) (snd p))
               (flat_map (fun v => map (pair v) (children v)) l)
             = flat_map (fun v => map (childRow v) (children v)) l).
  { induction l as [|u l IH]; simpl; [reflexivity|].
    rewrite map_app, map_map, IH; reflexivity. }
  rewrite E in H.
  exact (pairwise_flat_map _ _ _ (fun v => map (childRow v) (children v))
           os v Hv H).
Qed.

(** The children of one root: at most one row is hit. *)
Lemma submenu_hits m root :
  childrenApart root ->
  let hits := flat_map (fun c => if hitChild MenuWidth m root c
                                 then [root; c] else []) (children root) in
  hits = [] \/ exists c, In c (children root) /\ hits = [root; c].
Proof.
  intros Hap hits; subst hits.
  rewrite (flat_map_filter _ _ (hitChild MenuWidth m root) (fun c => [root; c])).
  destruct (at_most_one_hit _ (childRow root) (hitChild MenuWidth m root) _
              (hitChild_inside m root) (children root) Hap)
    as [E|(c & Hc & E)]; rewrite E; simpl; [left; reflexivity|].
  right; exists c; auto.
Qed.

Lemma sticky_fold m ul root (cs : list MenuOption) :
  forall acc,
    fold_left
      (fun res c => if inChildRow MenuWidth m ul c then res ++ [root; c] else res)
      cs acc
    = acc ++ flat_map (fun c => if inChildRow MenuWidth m ul c
                                then [root; c] else []) cs.
Proof.
  induction cs as [|c cs IH]; intros acc; simpl.
  - rewrite app_nil_r; reflexivity.
  - rewrite IH; destruct (inChildRow MenuWidth m ul c); simpl;
      [rewrite <- app_assoc|]; reflexivity.
Qed.

Lemma child_hits_as_pairs m (os : list MenuOption) :
  flat_map (fun v => flat_map (fun c => if hitChild MenuWidth m v c
                                        then [v; c] else []) (children v)) os
  = flat_map (fun p => [fst p; snd p])
      (filter (fun p => hitChild MenuWidth m (fst p) (snd p)) (submenuPairs os)).
Proof.
  unfold submenuPairs; induction os as [|v os IH]; simpl; [reflexivity|].
  rewrite filter_app, flat_map_app, IH; f_equal.
  induction (children v) as [|c cs IHc]; simpl; [reflexivity|].
  destruct (hitChild MenuWidth m v c); simpl; rewrite IHc; reflexivity.
Qed.

(** The scan of a tree whose rows are apart yields a path of the right
    shape. *)
Lemma fullRescan_wellFormed m :
  nonOverlapping (options (tree m)) = true ->
  pathWellFormed (fst (fullRescan MenuWidth clock m)).
Proof.
  intros Hno; rewrite fullRescan_path.
  pose proof Hno as Hno'; unfold nonOverlapping in Hno'.
  apply andb_true_iff in Hno'; destruct Hno' as [Hroots Hkids].
  set (os := options (tree m)) in *.
  destruct (existsb (hitRoot MenuWidth m) os) eqn:Hex.
  - (* the pointer is in the column of the root options *)
    apply existsb_exists in Hex; destruct Hex as (u & _ & Hu).
    assert (E : flat_map (hitsAt MenuWidth m) os
                = filter (hitRoot MenuWidth m) os).
    { clear - Hu. induction os as [|v os IH]; simpl; [reflexivity|].
      unfold hitsAt at 1.
      rewrite flat_map_all_nil
        by (intros c _; rewrite (columns_exclusive m u v c Hu); reflexivity).
      rewrite app_nil_r, IH; destruct (hitRoot MenuWidth m v); reflexivity. }
    rewrite E.
    destruct (at_most_one_hit _ rootRow (hitRoot MenuWidth m) _
                (hitRoot_inside m) os Hroots) as [F|(v & Hv & F)];
      rewrite F; simpl; [exact I|].
    exact (childrenApart_of_tree os v Hno Hv).
  - (* no root option is hit *)
    assert (Hnone : forall v, In v os -> hitRoot MenuWidth m v = false).
    { intros v Hv; destruct (hitRoot MenuWidth m v) eqn:Hh; [|reflexivity].
      assert (existsb (hitRoot MenuWidth m) os = true)
        by (apply existsb_exists; exists v; auto).
      congruence. }
    assert (E : flat_map (hitsAt MenuWidth m) os
                = flat_map (fun v => flat_map
                                       (fun c => if hitChild MenuWidth m v c
                                                 then [v; c] else [])
                                       (children v)) os).
    { clear - Hnone. induction os as [|v os IH]; simpl; [reflexivity|].
      unfold hitsAt at 1; rewrite (Hnone v) by (left; reflexivity); simpl.
      rewrite IH by (intros w Hw; apply Hnone; right; exact Hw); reflexivity. }
    rewrite E, child_hits_as_pairs.
    destruct (at_most_one_hit _ (fun p => childRow (fst p) (snd p))
                (fun p => hitChild MenuWidth m (fst p) (snd p)) _
                (fun p => hitChild_inside m (fst p) (snd p))
                (submenuPairs os) Hkids) as [F|([v c] & Hp & F)];
      rewrite F; simpl; [exact I|].
    apply in_submenuPairs in Hp; destruct Hp as [Hv Hc].
    split; [exact Hc | exact (childrenApart_of_tree os v Hno Hv)].
Qed.

Lemma pathWellFormed_head root rest :
  pathWellFormed (root :: rest) -> childrenApart root.
Proof.
  destruct rest as [|c [|d rest]]; simpl; tauto.
Qed.

Lemma hitTest_wellFormed m :
  nonOverlapping (options (tree m)) = true ->
  pathWellFormed (optionPath m) ->
  pathWellFormed (fst (optionPathUnderMouse MenuWidth clock m)).
Proof.
  intros Hno Hp; unfold optionPathUnderMouse.
  destruct (stickySubmenu MenuWidth m) as [r|] eqn:Hs;
    [|apply fullRescan_wellFormed; exact Hno].
  apply stickySubmenu_cases in Hs.
  destruct Hs as (root & rest & Hpath & _ & [[_ ->] | [_ ->]]);
    rewrite Hpath in Hp; apply pathWellFormed_head in Hp; cbn [fst].
  - rewrite sticky_fold; simpl.
    destruct (submenu_hits m root Hp) as [E|(c & Hc & E)];
      unfold hitChild in E; rewrite E; simpl; auto.
  - exact Hp.
Qed.

Lemma pathWellFormed_shape path :
  pathWellFormed path -> pathShape path /\ (List.length path <= 2)%nat.
Proof.
  unfold pathShape; destruct path as [|r [|c [|d rest]]]; simpl; intros H.
  - auto.
  - split; [right; left; exists r; reflexivity | lia].
  - split; [right; right; exists r, c; tauto | lia].
  - contradiction.
Qed.

(** ** The scan when one root option is under the pointer *)

Lemma visitRoot_miss u v s :
  hitRoot MenuWidth (self s) u = true ->
  hitRoot MenuWidth (self s) v = false ->
  visitRoot MenuWidth clock v s = s.
Proof.
  intros Hu Hv; unfold visitRoot; fold (hitRoot MenuWidth (self s) v).
  rewrite Hv; apply visitChildren_no_hit; intros c _.
  exact (columns_exclusive (self s) u v c Hu).
Qed.

Lemma rescan_roots_only m u (os : list MenuOption) :
  hitRoot MenuWidth m u = true ->
  forall s,
    hitTestFrame m (self s) ->
    fold_left (fun a v => visitRoot MenuWidth clock v a) os s
    = match filter (hitRoot MenuWidth m) os with
      | [] => s
      | [v] => mkScan (result s ++ [v]) (enterRoot (clock (ticks s)) v (self s))
                 (S (ticks s))
      | _ => fold_left (fun a v => visitRoot MenuWidth clock v a) os s
      end.
Proof.
  intros Hu; induction os as [|v os IH]; intros s F; simpl; [reflexivity|].
  destruct (hitRoot MenuWidth m v) eqn:Hv.
  - destruct (filter (hitRoot MenuWidth m) os) eqn:E; [|reflexivity].
    rewrite visitRoot_hit by (rewrite (hitRoot_frame m (self s) v F); exact Hv).
    rewrite IH; [reflexivity|].
    cbn [self]; eapply hitTestFrame_trans; [exact F | apply frame_enterRoot].
  - rewrite (visitRoot_miss u v s);
      [apply IH; exact F | |];
      rewrite (hitRoot_frame m (self s) _ F); assumption.
Qed.

(** When the scan runs over a tree whose rows are apart and the pointer
    is in the row of the root option [v], the path is [[v]] and the timer
    has been updated once, with the first clock reading. *)
Lemma rescan_single_root m v :
  stickySubmenu MenuWidth m = None ->
  nonOverlapping (options (tree m)) = true ->
  In v (options (tree m)) ->
  hitRoot MenuWidth m v = true ->
  optionPathUnderMouse MenuWidth clock m = ([v], enterRoot (clock 0%nat) v m).
Proof.
  intros Hs Hno Hin Hv; unfold optionPathUnderMouse, fullRescan; rewrite Hs.
  rewrite (rescan_roots_only m v _ Hv) by apply hitTestFrame_refl.
  apply andb_true_iff in Hno; destruct Hno as [Hroots _].
  assert (Hf : In v (filter (hitRoot MenuWidth m) (options (tree m))))
    by (apply filter_In; auto).
  destruct (at_most_one_hit _ rootRow (hitRoot MenuWidth m) _
              (hitRoot_inside m) _ Hroots) as [E|(a & _ & E)];
    rewrite E in Hf |- *; simpl in Hf; [contradiction|].
  destruct Hf as [->|[]]; reflexivity.
Qed.

(** ** The invariant of the controller *)

Lemma rebuildOptions_apart parent m :
  nonOverlapping
    (options (tree (rebuildOptions StateActionKeys shortcuts parent m))) = true.
Proof. reflexivity. Qed.

Lemma rebuildOptions_path parent m :
  optionPath (rebuildOptions StateActionKeys shortcuts parent m) = optionPath m.
Proof. reflexivity. Qed.

End Properties.

Section Invariant.

Variable MenuWidth : Z.
Variable PropertiesWidth : Z.
Variable StateActionKeys : ActionKeys.
Variable shortcuts : list (string * string).

Lemma setMousePosition_wellFormed clock m v :
  wellFormedMenu m -> wellFormedMenu (setMousePosition MenuWidth clock m v).
Proof.
  intros [Ht Hp]; unfold setMousePosition.
  cbn [visible withMousePosition].
  destruct (visible m); cbn [negb]; [|split; [exact Ht | exact I]].
  pose proof (frame_optionPathUnderMouse MenuWidth clock (withMousePosition v m))
    as (_ & _ & _ & Ft & _).
  pose proof (hitTest_wellFormed MenuWidth clock (withMousePosition v m) Ht Hp)
    as Hw.
  destruct (optionPathUnderMouse MenuWidth clock (withMousePosition v m))
    as [path m1]; cbn [fst snd] in *.
  assert (W : wellFormedMenu (withOptionPath path m1))
    by (split; cbn [tree optionPath withOptionPath]; [rewrite Ft; exact Ht | exact Hw]).
  destruct path; [|exact W].
  match goal with |- context [if ?c then _ else _] => destruct c end; exact W.
Qed.

Lemma click_wellFormed clock m v :
  wellFormedMenu m -> wellFormedMenu (snd (click MenuWidth clock m v)).
Proof.
  intros [Ht Hp].
  destruct (visible m) eqn:Hv;
    [|rewrite (click_invisible MenuWidth clock m v Hv); split; assumption].
  rewrite (click_visible MenuWidth clock m v Hv); cbv zeta.
  pose proof (frame_optionPathUnderMouse MenuWidth clock (withMousePosition v m))
    as (_ & _ & _ & Ft & _).
  pose proof (hitTest_wellFormed MenuWidth clock (withMousePosition v m) Ht Hp)
    as Hw.
  destruct (optionPathUnderMouse MenuWidth clock (withMousePosition v m))
    as [path m1]; cbn [fst snd] in *.
  assert (W : wellFormedMenu (withOptionPath path m1))
    by (split; cbn [tree optionPath withOptionPath]; [rewrite Ft; exact Ht | exact Hw]).
  destruct (resolvedSelection path); exact W.
Qed.

Lemma reachable_wellFormed m :
  reachable MenuWidth PropertiesWidth StateActionKeys shortcuts apartTree m ->
  wellFormedMenu m.
Proof.
  induction 1 as [parent | parent m _ [Ht Hp] | m _ IH | t m Ha _ [Ht Hp]
                 | parent m v _ IH | clock m v _ IH | clock m v _ IH].
  - split; [apply rebuildOptions_apart | exact I].
  - split; [apply rebuildOptions_apart | exact Hp].
  - exact IH.
  - split; [exact Ha | exact Hp].
  - unfold setPosition.
    match goal with |- context [if ?c then _ else _] => destruct c end; exact IH.
  - apply setMousePosition_wellFormed; exact IH.
  - apply click_wellFormed; exact IH.
Qed.

(** C7 (as the code has it). As long as every tree installed in the menu
    has rows that do not overlap, as the tree built by the menu itself
    has, the selection path has at most two options in every reachable
    state, and a path of two options is a root option followed by one of
    its children. *)
Theorem reachable_path_shape :
  forall m : Menu,
    reachable MenuWidth PropertiesWidth StateActionKeys shortcuts apartTree m ->
    pathShape (optionPath m) /\ (List.length (optionPath m) <= 2)%nat.
Proof.
  intros m H; apply reachable_wellFormed in H; destruct H as [_ H].
  apply pathWellFormed_shape; exact H.
Qed.

End Invariant.

(** * The definitions at work on concrete menus *)

(** The rows of the scenario: clicking the disabled "Copy" returns the
    empty string and closes the menu. *)
Example scenario_click_copy :
  fst (click 200 demoClock scenarioMenu (vec2 10 30)) = ""
  /\ map label (optionPath (snd (click 200 demoClock scenarioMenu (vec2 10 30))))
     = ["Copy"]
  /\ visible (snd (click 200 demoClock scenarioMenu (vec2 10 30))) = false.
Proof. vm_compute; auto. Qed.

(** Clicking the row of "Snap", which has children, returns the empty
    string and leaves the menu open. *)
Example scenario_click_snap :
  fst (click 200 demoClock scenarioMenu (vec2 10 50)) = ""
  /\ map label (optionPath (snd (click 200 demoClock scenarioMenu (vec2 10 50))))
     = ["Snap"]
  /\ visible (snd (click 200 demoClock scenarioMenu (vec2 10 50))) = true.
Proof. vm_compute; auto. Qed.

(** Clicking the child "A" returns its action. *)
Example scenario_click_child :
  fst (click 200 demoClock scenarioMenu (vec2 210 50)) = "actionA"
  /\ map label (optionPath (snd (click 200 demoClock scenarioMenu (vec2 210 50))))
     = ["Snap"; "A"]
  /\ visible (snd (click 200 demoClock scenarioMenu (vec2 210 50))) = false.
Proof. vm_compute; auto. Qed.

(** The offsets of the tree the menu builds. *)
Example demo_offsets :
  map computedOffset (options (tree demoOpen))
  = [12; 32; 34; 54; 56; 76; 96; 98; 118; 138; 158]
  /\ map computedOffset (children demoSnap) = [12; 32; 34; 54].
Proof. vm_compute; auto. Qed.

(** With the buffers enabled, a pointer between the row of "Snap" and its
    submenu, inside the lower triangle, keeps the root. *)
Example demo_lower_triangle_keeps_root :
  pointInTriangle (vec2 290 300) (lowerBufferTriangle 200 demoOnSnap demoSnap)
  = true
  /\ map label
       (fst (optionPathUnderMouse 200 demoClock
               (withMousePosition (vec2 290 300)
                  (withDisableBufferTriangles false demoOnSnap))))
     = ["Snap"].
Proof. vm_compute; auto. Qed.

(** With [twinSubmenus] the second child of the first root and the first
    child of the second root share a row, and the scan pushes both. *)
Example twin_path :
  map label (optionPath demoTwin) = ["First"; "First B"; "Second"; "Second A"]
  /\ nonOverlapping (options twinSubmenus) = false
  /\ nonOverlapping (options (tree demoOpen)) = true.
Proof. vm_compute; auto. Qed.

(** A triangle without area contains no point. *)
Example degenerate_triangle :
  pointInTriangle (vec2 1 1) (vec2 0 0, vec2 0 0, vec2 5 5) = false.
Proof. reflexivity. Qed.


(** C3 fails as stated: after [hide] the path still holds "Snap". *)
Lemma hide_clears_path_counterexample :
  ~ (visible (hide demoOnSnap) = false /\ optionPath (hide demoOnSnap) = []).
Proof. intros [_ H]; vm_compute in H; discriminate H. Qed.

(** C4 fails as stated: the lower buffer triangle at "Snap" is 62 pixels
    high. *)
Lemma buffer_triangles_15_counterexample :
  ~ (triangleWidth (upperBufferTriangle 200 demoOnSnap demoSnap) = 200 /\
     triangleHeight (upperBufferTriangle 200 demoOnSnap demoSnap) = 15 /\
     triangleWidth (lowerBufferTriangle 200 demoOnSnap demoSnap) = 200 /\
     triangleHeight (lowerBufferTriangle 200 demoOnSnap demoSnap) = 15).
Proof. intros (_ & _ & _ & H); vm_compute in H; discriminate H. Qed.

Lemma buffer_triangle_extents_witness :
  0 <= 200
  /\ triangleHeight (lowerBufferTriangle 200 demoOnSnap demoSnap) = 62.
Proof.
  split; [lia|].
  destruct (buffer_triangle_extents 200 demoOnSnap demoSnap ltac:(lia))
    as (_ & _ & _ & E).
  rewrite E; reflexivity.
Defined.

Lemma auto_dismiss_witness :
  visible demoOpen = true
  /\ fst (optionPathUnderMouse 200 demoClock
            (withMousePosition (vec2 5000 5000) demoOpen)) = []
  /\ visible (setMousePosition 200 demoClock demoOpen (vec2 5000 5000)) = false.
Proof.
  split; [reflexivity|]; split; [reflexivity|].
  destruct (auto_dismiss_outside_padded_box 200 demoClock demoOpen
              (vec2 5000 5000) eq_refl eq_refl) as (_ & _ & E).
  rewrite E; reflexivity.
Defined.

Lemma demoOnSnap_reachable :
  reachable 200 300 demoKeys [] apartTree demoOnSnap.
Proof.
  apply reach_setMousePosition, reach_setPosition, reach_show, reach_construct.
Qed.

Lemma reachable_path_shape_witness :
  reachable 200 300 demoKeys [] apartTree demoOnSnap
  /\ (List.length (optionPath demoOnSnap) <= 2)%nat.
Proof.
  split; [exact demoOnSnap_reachable|].
  exact (proj2 (reachable_path_shape 200 300 demoKeys [] demoOnSnap
                  demoOnSnap_reachable)).
Defined.

(** C7 fails as stated: with [twinSubmenus] installed the path has four
    options. *)
Lemma path_length_counterexample :
  ~ (forall m : Menu,
        reachable 200 300 demoKeys [] (fun _ => True) m ->
        pathShape (optionPath m)).
Proof.
  intros H.
  assert (R : reachable 200 300 demoKeys [] (fun _ => True) demoTwin)
    by (apply reach_setMousePosition, reach_setOptionTree;
        [exact I | apply reach_show, reach_construct]).
  destruct (H demoTwin R) as [E | [(r & E) | (r & c & E & _)]];
    vm_compute in E; discriminate E.
Qed.

Lemma click_invisible_noop_witness :
  visible demoClosed = false
  /\ click 200 demoClock demoClosed (vec2 150 60) = ("", demoClosed).
Proof.
  split; [reflexivity|].
  exact (proj1 (click_invisible_noop 200 demoClock demoClosed (vec2 150 60)
                  eq_refl)).
Defined.

Lemma submenu_gap_witness :
  optionPath demoInGap = [demoSnap]
  /\ inChildMenu 200 demoInGap demoSnap = true
  /\ optionPathUnderMouse 200 demoClock demoInGap
     = ([], withDisableBufferTriangles true demoInGap).
Proof.
  split; [reflexivity|]; split; [reflexivity|].
  refine (proj1 (submenu_gap_yields_empty_path 200 demoClock demoInGap demoSnap []
                   eq_refl _ eq_refl _)).
  - vm_compute; discriminate.
  - intros c Hc; vm_compute in Hc.
    repeat (destruct Hc as [<-|Hc]; [reflexivity|]); contradiction.
Defined.

(** * Further properties of the code *)

(** ** The triangle test *)

Lemma numGeq0_div (a : Z) (p : positive) :
  numGeq0 (numDiv a (Z.pos p)) = true <-> 0 <= a.
Proof.
  unfold numDiv, numGeq0; simpl.
  rewrite Qle_bool_iff; unfold Qle, Qdiv, Qmult, Qinv, inject_Z; simpl.
  lia.
Qed.

Lemma numGeq0_rest (a b : Z) (p : positive) :
  numGeq0 (numSub (numSub (Fin (inject_Z 1)) (numDiv a (Z.pos p)))
             (numDiv b (Z.pos p))) = true
  <-> a + b <= Z.pos p.
Proof.
  unfold numDiv, numGeq0, numSub; simpl.
  rewrite Qle_bool_iff.
  unfold Qle, Qminus, Qplus, Qopp, Qdiv, Qmult, Qinv, inject_Z;
    cbn [Qnum Qden].
  rewrite ?Pos.mul_1_l, ?Pos.mul_1_r, ?Pos2Z.inj_mul. nia.
Qed.

Lemma weights_inside (nv nw denom : Z) :
  0 <= denom ->
  numGeq0 (numSub (numSub (Fin (inject_Z 1)) (numDiv nv denom)) (numDiv nw denom))
  && numGeq0 (numDiv nv denom) && numGeq0 (numDiv nw denom) = true
  <-> denom <> 0 /\ 0 <= nv /\ 0 <= nw /\ nv + nw <= denom.
Proof.
  intros Hd; destruct denom as [|p|p]; [| |lia].
  - split; [|intros [H _]; contradiction].
    unfold numDiv; simpl.
    destruct (nv =? 0), (0 <? nv), (nw =? 0), (0 <? nw); simpl; discriminate.
  - rewrite !andb_true_iff, numGeq0_rest, !numGeq0_div.
    split; [intros [[H1 H2] H3] | intros (_ & H1 & H2 & H3)]; repeat split;
      auto; discriminate.
Qed.

Lemma baycentric_weights (pt t0 t1 t2 : Vec2) :
  let v0 := sub t1 t0 in
  let v1 := sub t2 t0 in
  let v2 := sub pt t0 in
  let c := doubleArea (t0, t1, t2) in
  dot v0 v0 * dot v1 v1 - dot v0 v1 * dot v0 v1 = c * c /\
  dot v1 v1 * dot v2 v0 - dot v0 v1 * dot v2 v1 = c * cross v2 v1 /\
  dot v0 v0 * dot v2 v1 - dot v0 v1 * dot v2 v0 = c * cross v0 v2 /\
  c - cross v2 v1 - cross v0 v2 = cross (sub t1 pt) (sub t2 pt).
Proof.
  unfold doubleArea, cross, dot, sub; simpl; repeat split; ring.
Qed.

Lemma pointInTriangle_iff :
  forall pt t0 t1 t2 : Vec2,
    let c := doubleArea (t0, t1, t2) in
    pointInTriangle pt (t0, t1, t2) = true
    <-> c <> 0 /\
        0 <= c * cross (sub pt t0) (sub t2 t0) /\
        0 <= c * cross (sub t1 t0) (sub pt t0) /\
        0 <= c * cross (sub t1 pt) (sub t2 pt).
Proof.
  intros pt t0 t1 t2 c.
  destruct (baycentric_weights pt t0 t1 t2) as (Ed & Ev & Ew & Eu).
  fold c in Ed, Ev, Ew, Eu.
  cbv beta iota zeta delta [pointInTriangle baycentric].
  rewrite Ed, Ev, Ew, weights_inside by nia.
  rewrite <- Eu.
  split; intros (H0 & H1 & H2 & H3).
  - assert (c <> 0) by nia. repeat split; auto; nia.
  - repeat split; try nia.
Qed.


(** A triangle without area (two equal corners, or three corners on a
    line) makes the weights divide by zero; the test then rejects every
    point. *)
Theorem pointInTriangle_degenerate :
  forall pt t0 t1 t2 : Vec2,
    doubleArea (t0, t1, t2) = 0 ->
    pointInTriangle pt (t0, t1, t2) = false.
Proof.
  intros pt t0 t1 t2 H; apply not_true_is_false; intros K.
  apply pointInTriangle_iff in K; tauto.
Qed.

(** The three corners of a triangle with area are inside it. *)
Theorem pointInTriangle_corners :
  forall t0 t1 t2 : Vec2,
    doubleArea (t0, t1, t2) <> 0 ->
    pointInTriangle t0 (t0, t1, t2) = true /\
    pointInTriangle t1 (t0, t1, t2) = true /\
    pointInTriangle t2 (t0, t1, t2) = true.
Proof.
  intros t0 t1 t2 H.
  repeat split; apply pointInTriangle_iff; (split; [exact H|]);
    unfold doubleArea, cross, sub in *; simpl in *; repeat split; nia.
Qed.

Section BufferTriangles.

Variable MenuWidth : Z.
Hypothesis MenuWidth_pos : 0 < MenuWidth.







End BufferTriangles.

(** ** The layout and the size of a list of options *)

Lemma fold_heights_shift (os : list MenuOption) :
  forall a,
    fold_left (fun height v => height + offsetOf v) os a
    = a + fold_left (fun height v => height + offsetOf v) os 0.
Proof.
  induction os as [|v os IH]; intros a; simpl; [lia|].
  rewrite (IH (a + offsetOf v)), (IH (offsetOf v)); lia.
Qed.

Lemma offsetOf_cases (v : MenuOption) : offsetOf v = 2 \/ offsetOf v = 20.
Proof. unfold offsetOf; destruct (type v); auto. Qed.

Lemma layoutFrom_heights (os : list MenuOption) :
  forall h a,
    fold_left (fun height v => height + offsetOf v) (layoutFrom h os) a
    = fold_left (fun height v => height + offsetOf v) os a.
Proof.
  induction os as [|v os IH]; intros h a; simpl; [reflexivity|].
  rewrite offsetOf_layoutOption; apply IH.
Qed.

(** The size of a list of options: the width is the width of the column;
    the height is additive, lies between 2 and 20 pixels per option, is
    zero for no options, and is not changed by the layout. *)
Theorem size_of_options :
  forall (MenuWidth : Z) (os os' : list MenuOption),
    x (size MenuWidth os) = MenuWidth /\
    y (size MenuWidth []) = 0 /\
    y (size MenuWidth (os ++ os')) = y (size MenuWidth os) + y (size MenuWidth os') /\
    2 * Z.of_nat (List.length os) <= y (size MenuWidth os)
      <= 20 * Z.of_nat (List.length os) /\
    size MenuWidth (computeOffsetForOptions os) = size MenuWidth os.
Proof.
  intros W os os'; unfold size; cbn [x y].
  split; [reflexivity|]; split; [reflexivity|]; split; [|split].
  - rewrite fold_left_app, fold_heights_shift; reflexivity.
  - induction os as [|v os IH]; [simpl; lia|].
    cbn [fold_left List.length]; rewrite fold_heights_shift.
    destruct (offsetOf_cases v); lia.
  - unfold computeOffsetForOptions; rewrite layoutFrom_heights; reflexivity.
Qed.

Lemma layoutFrom_app (pre post : list MenuOption) :
  forall h,
    layoutFrom h (pre ++ post)
    = layoutFrom h pre
      ++ layoutFrom (h + fold_left (fun height v => height + offsetOf v) pre 0)
           post.
Proof.
  induction pre as [|v pre IH]; intros h; simpl.
  - rewrite Z.add_0_r; reflexivity.
  - rewrite IH, (fold_heights_shift pre (offsetOf v)).
    rewrite Z.add_assoc; reflexivity.
Qed.

Lemma layoutFrom_offsets_upper (os : list MenuOption) :
  forall h c,
    In c (layoutFrom h os) ->
    computedOffset c + offsetOf c
    <= h + fold_left (fun height v => height + offsetOf v) os 0.
Proof.
  induction os as [|v os IH]; intros h c; simpl; [contradiction|].
  rewrite (fold_heights_shift os (offsetOf v)).
  pose proof (heights_from os 0) as Hpos.
  intros [<-|H].
  - rewrite offsetOf_layoutOption, layoutOption_unfold; cbn; lia.
  - apply IH in H; lia.
Qed.

Lemma layoutFrom_length (os : list MenuOption) :
  forall h, List.length (layoutFrom h os) = List.length os.
Proof. induction os as [|v os IH]; intros h; simpl; auto. Qed.

(** The layout gives every option the offset 12 plus the heights of the
    options before it, lays out its children from 12 again, and leaves
    its identity, type, label, action, shortcut and enabled flag alone;
    the number of options does not change. *)
Theorem layout_offsets :
  forall (MenuWidth : Z) (pre post : list MenuOption) (v : MenuOption),
    let laid := computeOffsetForOptions (pre ++ v :: post) in
    List.length laid = List.length (pre ++ v :: post) /\
    exists v',
      nth_error laid (List.length pre) = Some v' /\
      computedOffset v' = 12 + y (size MenuWidth pre) /\
      children v' = computeOffsetForOptions (children v) /\
      oid v' = oid v /\ type v' = type v /\ label v' = label v /\
      action v' = action v /\ shortcut v' = shortcut v /\
      enabled v' = enabled v.
Proof.
  intros W pre post v laid; subst laid; unfold computeOffsetForOptions.
  split; [apply layoutFrom_length|].
  rewrite layoutFrom_app; cbn [layoutFrom].
  exists (layoutOption
            (12 + fold_left (fun height v => height + offsetOf v) pre 0) v).
  split.
  - rewrite nth_error_app2; rewrite layoutFrom_length; [|lia].
    rewrite Nat.sub_diag; reflexivity.
  - rewrite layoutOption_unfold; cbn; repeat split; reflexivity.
Qed.

Lemma rows_after (k a ha : Z) (os : list MenuOption) :
  forall h,
    a + ha <= k + h ->
    forallb (disjointRows (a, ha))
      (map (fun c => (k + computedOffset c, offsetOf c)) (layoutFrom h os))
    = true.
Proof.
  induction os as [|v os IH]; intros h H; simpl; [reflexivity|].
  apply andb_true_iff; split.
  - unfold disjointRows; cbn [fst snd]; rewrite layoutOption_unfold; cbn.
    apply orb_true_iff; left; apply Z.leb_le; lia.
  - apply IH; destruct (offsetOf_cases v); lia.
Qed.

Lemma layoutFrom_rows_apart (k : Z) (os : list MenuOption) :
  forall h,
    pairwise disjointRows
      (map (fun c => (k + computedOffset c, offsetOf c)) (layoutFrom h os))
    = true.
Proof.
  induction os as [|v os IH]; intros h; simpl; [reflexivity|].
  apply andb_true_iff; split; [|apply IH].
  apply rows_after; rewrite offsetOf_layoutOption, layoutOption_unfold; cbn.
  lia.
Qed.

(** After the layout the rows of the options are pairwise apart, and so
    are the rows of the children of each option. *)
Theorem layout_rows_apart :
  forall os : list MenuOption,
    pairwise disjointRows (map rootRow (computeOffsetForOptions os)) = true /\
    forall v, In v (computeOffsetForOptions os) -> childrenApart v.
Proof.
  intros os; split.
  - exact (layoutFrom_rows_apart 0 os 12).
  - unfold computeOffsetForOptions; generalize 12 at 1.
    induction os as [|u os IH]; intros h v; simpl; [contradiction|].
    intros [<-|H]; [|exact (IH _ v H)].
    unfold childrenApart, childRow.
    rewrite layoutOption_unfold; cbn [children computedOffset].
    apply layoutFrom_rows_apart.
Qed.

(** ** The sticky submenu, region by region *)

Section Sticky.

Variable MenuWidth : Z.
Variable clock : nat -> Z.

Lemma stickySubmenu_region m root rest :
  optionPath m = root :: rest ->
  children root <> [] ->
  stickySubmenu MenuWidth m
  = if stickyRegion MenuWidth m root then
      if inChildMenu MenuWidth m root then
        Some (fold_left
                (fun res c =>
                   if inChildRow MenuWidth m (rowUpperLeft m root) c
                   then res ++ [root; c] else res)
                (children root) [],
              withDisableBufferTriangles true m)
      else Some ([root], m)
    else None.
Proof.
  intros Hp Hc; unfold stickySubmenu; rewrite Hp.
  destruct (children root) as [|c0 cs] eqn:Hch; [contradiction|].
  rewrite <- Hch.
  unfold stickyRegion, inBufferTriangles.
  fold (inRootOption MenuWidth m root) (inChildBuffer MenuWidth m root).
  destruct (disableBufferTriangles m); cbn [negb andb];
    [rewrite !orb_false_r | rewrite orb_assoc]; reflexivity.
Qed.

(** While the submenu of the root of the previous path is open and the
    pointer is in one of the five regions but not in the box of the
    submenu, the path is the root alone and the menu is not changed. *)
Theorem sticky_keeps_root :
  forall (m : Menu) (root : MenuOption) (rest : list MenuOption),
    optionPath m = root :: rest ->
    children root <> [] ->
    stickyRegion MenuWidth m root = true ->
    inChildMenu MenuWidth m root = false ->
    optionPathUnderMouse MenuWidth clock m = ([root], m).
Proof.
  intros m root rest Hp Hc Hr Hin; unfold optionPathUnderMouse.
  rewrite (stickySubmenu_region m root rest Hp Hc), Hr, Hin; reflexivity.
Qed.

(** Once the pointer is in none of the five regions, or when the
    previous path is empty or its root has no children, the path is the
    one the scan of the whole tree yields. *)
Theorem sticky_released :
  forall (m : Menu),
    match optionPath m with
    | [] => True
    | root :: _ => children root = [] \/ stickyRegion MenuWidth m root = false
    end ->
    optionPathUnderMouse MenuWidth clock m = fullRescan MenuWidth clock m.
Proof.
  intros m H; unfold optionPathUnderMouse.
  destruct (optionPath m) as [|root rest] eqn:Hp.
  - unfold stickySubmenu; rewrite Hp; reflexivity.
  - destruct (children root) as [|c cs] eqn:Hc.
    + unfold stickySubmenu; rewrite Hp, Hc; reflexivity.
    + destruct H as [H|H]; [discriminate|].
      rewrite (stickySubmenu_region m root rest Hp), H;
        [reflexivity | rewrite Hc; discriminate].
Qed.

(** In the box of the open submenu, on the row of one of the children
    (whose rows are apart), the path is the root and that child; the
    buffer triangles are disabled and nothing else changes. *)
Theorem sticky_selects_child :
  forall (m : Menu) (root c : MenuOption) (rest : list MenuOption),
    optionPath m = root :: rest ->
    childrenApart root ->
    In c (children root) ->
    inChildMenu MenuWidth m root = true ->
    hitChild MenuWidth m root c = true ->
    optionPathUnderMouse MenuWidth clock m
    = ([root; c], withDisableBufferTriangles true m).
Proof.
  intros m root c rest Hp Hap Hc Hin Hhit; unfold optionPathUnderMouse.
  assert (Hne : children root <> [])
    by (intros E; rewrite E in Hc; contradiction).
  rewrite (stickySubmenu_in_child_menu MenuWidth m root rest Hp Hne Hin).
  rewrite sticky_fold; cbn [app]; f_equal.
  destruct (submenu_hits MenuWidth m root Hap) as [E|(d & Hd & E)];
    unfold hitChild in E; rewrite E.
  - exfalso.
    assert (K : In c (filter (hitChild MenuWidth m root) (children root)))
      by (apply filter_In; auto).
    rewrite (flat_map_filter _ _ (hitChild MenuWidth m root)
               (fun c => [root; c])) in E.
    destruct (filter (hitChild MenuWidth m root) (children root));
      [contradiction | discriminate].
  - assert (K : In c (filter (hitChild MenuWidth m root) (children root)))
      by (apply filter_In; auto).
    rewrite (flat_map_filter _ _ (hitChild MenuWidth m root)
               (fun c => [root; c])) in E.
    destruct (filter (hitChild MenuWidth m root) (children root))
      as [|e [|e' r]]; simpl in E; try discriminate.
    inversion E; subst; destruct K as [->|[]]; reflexivity.
Qed.

(** The rows of a laid out submenu start two pixels below the upper edge
    of its box and so end two pixels below its lower edge.  With the
    submenu open, a pointer on a child row but below the box of the
    submenu selects the root alone: the row is inside the padded box but
    the children are looked at only inside the box of the submenu. *)
Theorem sticky_row_below_box :
  forall (m : Menu) (root c : MenuOption) (rest cs : list MenuOption),
    optionPath m = root :: rest ->
    children root = computeOffsetForOptions cs ->
    In c (children root) ->
    hitChild MenuWidth m root c = true ->
    inChildMenu MenuWidth m root = false ->
    optionPathUnderMouse MenuWidth clock m = ([root], m).
Proof.
  intros m root c rest cs Hp Hcs Hc Hhit Hin.
  assert (Hne : children root <> [])
    by (intros E; rewrite E in Hc; contradiction).
  unfold optionPathUnderMouse.
  rewrite (stickySubmenu_region m root rest Hp Hne), Hin.
  assert (Hbuf : inChildBuffer MenuWidth m root = true).
  { unfold hitChild, inChildRow in Hhit; apply pointInBox_spec in Hhit.
    unfold inChildBuffer; apply pointInBox_spec.
    assert (Hlow : 12 <= computedOffset c)
      by (rewrite Hcs in Hc; exact (layoutFrom_offsets cs 12 c Hc)).
    assert (Hhigh : computedOffset c + offsetOf c
                    <= 12 + y (size MenuWidth (children root))).
    { rewrite Hcs in Hc |- *; unfold size, computeOffsetForOptions; cbn [y].
      rewrite layoutFrom_heights.
      exact (layoutFrom_offsets_upper cs 12 c Hc). }
    unfold rowUpperLeft, add in *; cbn [x y size] in *; lia. }
  unfold stickyRegion; rewrite Hbuf, orb_true_r; reflexivity.
Qed.

End Sticky.

(** ** The scan of the whole tree, case by case *)

Section Scanning.

Variable MenuWidth : Z.
Variable clock : nat -> Z.

Lemma hitRoot_pixels m v :
  hitRoot MenuWidth m v = true
  <-> 0 <= x (mousePosition m) - x (position m) < MenuWidth /\
      computedOffset v <= y (mousePosition m) - y (position m) + 10
        < computedOffset v + offsetOf v.
Proof.
  unfold hitRoot; rewrite pointInBox_spec.
  unfold rowUpperLeft; cbn [x y]; lia.
Qed.

Lemma hitChild_pixels m v c :
  hitChild MenuWidth m v c = true
  <-> 0 <= x (mousePosition m) - x (position m) - MenuWidth < MenuWidth /\
      computedOffset v + computedOffset c
        <= y (mousePosition m) - y (position m) + 20
        < computedOffset v + computedOffset c + offsetOf c.
Proof.
  unfold hitChild, inChildRow; rewrite pointInBox_spec.
  unfold rowUpperLeft, add; cbn [x y]; lia.
Qed.

Lemma visitRoot_nothing v s :
  hitRoot MenuWidth (self s) v = false ->
  (forall c, In c (children v) -> hitChild MenuWidth (self s) v c = false) ->
  visitRoot MenuWidth clock v s = s.
Proof.
  intros Hv Hc; unfold visitRoot; fold (hitRoot MenuWidth (self s) v).
  rewrite Hv; apply visitChildren_no_hit; exact Hc.
Qed.

Lemma rescan_nothing m (os : list MenuOption) :
  (forall v, In v os -> hitRoot MenuWidth m v = false) ->
  (forall v c, In v os -> In c (children v) -> hitChild MenuWidth m v c = false) ->
  fold_left (fun a v => visitRoot MenuWidth clock v a) os (mkScan [] m 0%nat)
  = mkScan [] m 0%nat.
Proof.
  intros Hr Hc; induction os as [|v os IH]; simpl; [reflexivity|].
  rewrite visitRoot_nothing; cbn [self].
  - apply IH; intros; [apply Hr | apply Hc]; auto; right; assumption.
  - apply Hr; left; reflexivity.
  - intros c Hin; apply Hc; auto; left; reflexivity.
Qed.

(** Left of the menu and right of the column of the submenus no row is
    hit: the scan of the whole tree yields the empty path and changes
    nothing. *)
Theorem rescan_outside_columns :
  forall (m : Menu),
    stickySubmenu MenuWidth m = None ->
    x (mousePosition m) - x (position m) < 0
    \/ 2 * MenuWidth <= x (mousePosition m) - x (position m) ->
    optionPathUnderMouse MenuWidth clock m = ([], m).
Proof.
  intros m Hs Hx; unfold optionPathUnderMouse, fullRescan; rewrite Hs.
  rewrite rescan_nothing; [reflexivity | |].
  - intros v _; apply not_true_is_false; rewrite hitRoot_pixels; lia.
  - intros v c _ _; apply not_true_is_false; rewrite hitChild_pixels; lia.
Qed.

Lemma visitChildren_state m ul v (cs : list MenuOption) :
  forall s,
    hitTestFrame m (self s) ->
    self (fold_left (fun a c => visitChild MenuWidth ul v c a) cs s)
    = if existsb (inChildRow MenuWidth m ul) cs
      then withDisableBufferTriangles true (self s) else self s.
Proof.
  induction cs as [|c cs IH]; intros s F; simpl; [reflexivity|].
  rewrite IH by (apply frame_visitChild; exact F).
  unfold visitChild; rewrite (inChildRow_frame MenuWidth m (self s) ul c F).
  destruct (inChildRow MenuWidth m ul c); cbn [self orb]; [|reflexivity].
  destruct (existsb (inChildRow MenuWidth m ul) cs); reflexivity.
Qed.

Lemma rescan_children_state m (os : list MenuOption) :
  (forall v, In v os -> hitRoot MenuWidth m v = false) ->
  forall s,
    hitTestFrame m (self s) ->
    let s' := fold_left (fun a v => visitRoot MenuWidth clock v a) os s in
    self s'
    = (if existsb (fun v => existsb (hitChild MenuWidth m v) (children v)) os
       then withDisableBufferTriangles true (self s) else self s).
Proof.
  intros Hr; induction os as [|v os IH]; intros s F; simpl; [reflexivity|].
  rewrite IH;
    [| intros u Hu; apply Hr; right; exact Hu | apply frame_visitRoot; exact F].
  assert (E : self (visitRoot MenuWidth clock v s)
              = if existsb (hitChild MenuWidth m v) (children v)
                then withDisableBufferTriangles true (self s) else self s).
  { unfold visitRoot; fold (hitRoot MenuWidth (self s) v).
    rewrite (hitRoot_frame MenuWidth m (self s) v F), (Hr v)
      by (left; reflexivity).
    rewrite (visitChildren_state m) by exact F.
    rewrite (rowUpperLeft_frame m (self s) v F); reflexivity. }
  rewrite E.
  destruct (existsb (hitChild MenuWidth m v) (children v)); cbn [orb];
    [|reflexivity].
  destruct (existsb _ os); reflexivity.
Qed.

Lemma rescan_child_path m (os : list MenuOption) v c :
  nonOverlapping os = true ->
  In v os -> In c (children v) ->
  hitChild MenuWidth m v c = true ->
  (forall u, In u os -> hitRoot MenuWidth m u = false) /\
  flat_map (hitsAt MenuWidth m) os = [v; c].
Proof.
  intros Hno Hv Hc Hhit.
  assert (Hnone : forall u, In u os -> hitRoot MenuWidth m u = false).
  { intros u _; destruct (hitRoot MenuWidth m u) eqn:Hu; [|reflexivity].
    rewrite (columns_exclusive MenuWidth m u v c Hu) in Hhit; discriminate. }
  split; [exact Hnone|].
  apply andb_true_iff in Hno; destruct Hno as [_ Hkids].
  assert (E : flat_map (hitsAt MenuWidth m) os
              = flat_map (fun v => flat_map
                                     (fun c => if hitChild MenuWidth m v c
                                               then [v; c] else [])
                                     (children v)) os).
  { clear - Hnone. induction os as [|w os IH]; simpl; [reflexivity|].
    unfold hitsAt at 1; rewrite (Hnone w) by (left; reflexivity); simpl.
    rewrite IH by (intros u Hu; apply Hnone; right; exact Hu); reflexivity. }
  rewrite E, child_hits_as_pairs.
  assert (K : In (v, c)
                (filter (fun p => hitChild MenuWidth m (fst p) (snd p))
                   (submenuPairs os))).
  { apply filter_In; split; [|exact Hhit].
    unfold submenuPairs; apply in_flat_map; exists v; split; [exact Hv|].
    apply in_map; exact Hc. }
  destruct (at_most_one_hit _ (fun p => childRow (fst p) (snd p))
              (fun p => hitChild MenuWidth m (fst p) (snd p)) _
              (fun p => hitChild_inside MenuWidth m (fst p) (snd p))
              (submenuPairs os) Hkids) as [F|(q & _ & F)];
    rewrite F in K |- *; simpl in K; [contradiction|].
  destruct K as [->|[]]; reflexivity.
Qed.

Lemma rescan_child_hit :
  forall (m : Menu) (v c : MenuOption),
    stickySubmenu MenuWidth m = None ->
    nonOverlapping (options (tree m)) = true ->
    In v (options (tree m)) ->
    In c (children v) ->
    hitChild MenuWidth m v c = true ->
    optionPathUnderMouse MenuWidth clock m
    = ([v; c], withDisableBufferTriangles true m).
Proof.
  intros m v c Hs Hno Hv Hc Hhit.
  destruct (rescan_child_path m _ v c Hno Hv Hc Hhit) as [Hnone Hpath].
  unfold optionPathUnderMouse; rewrite Hs.
  rewrite (surjective_pairing (fullRescan MenuWidth clock m)).
  rewrite fullRescan_path, Hpath; f_equal.
  unfold fullRescan; cbn [snd].
  rewrite (rescan_children_state m _ Hnone) by apply hitTestFrame_refl.
  cbn [self].
  assert (X : existsb (fun v => existsb (hitChild MenuWidth m v) (children v))
                (options (tree m)) = true).
  { apply existsb_exists; exists v; split; [exact Hv|].
    apply existsb_exists; exists c; auto. }
  rewrite X; reflexivity.
Qed.

(** With no submenu held open and a tree whose rows are apart, a pointer
    on the row of a child selects its root and the child, whether or not
    that submenu was open before; the buffer triangles are disabled, the
    timestamp is not touched and the clock is not read. *)
Theorem rescan_selects_child :
  forall (m : Menu) (v c : MenuOption),
    stickySubmenu MenuWidth m = None ->
    nonOverlapping (options (tree m)) = true ->
    In v (options (tree m)) ->
    In c (children v) ->
    hitChild MenuWidth m v c = true ->
    optionPathUnderMouse MenuWidth clock m
    = ([v; c], withDisableBufferTriangles true m).
Proof. exact rescan_child_hit. Qed.

Lemma rescan_root_unique (m : Menu) (v : MenuOption) :
  stickySubmenu MenuWidth m = None ->
  pairwise disjointRows (map rootRow (options (tree m))) = true ->
  In v (options (tree m)) ->
  hitRoot MenuWidth m v = true ->
  optionPathUnderMouse MenuWidth clock m = ([v], enterRoot (clock 0%nat) v m).
Proof.
  intros Hs Hroots Hin Hv; unfold optionPathUnderMouse, fullRescan; rewrite Hs.
  rewrite (rescan_roots_only MenuWidth clock m v _ Hv)
    by apply hitTestFrame_refl.
  assert (Hf : In v (filter (hitRoot MenuWidth m) (options (tree m))))
    by (apply filter_In; auto).
  destruct (at_most_one_hit _ rootRow (hitRoot MenuWidth m) _
              (hitRoot_inside MenuWidth m) _ Hroots) as [E|(a & _ & E)];
    rewrite E in Hf |- *; simpl in Hf; [contradiction|].
  destruct Hf as [->|[]]; reflexivity.
Qed.

Lemma layout_row_covers (os : list MenuOption) :
  forall h t,
    h <= t < h + fold_left (fun height v => height + offsetOf v) os 0 ->
    exists v, In v (layoutFrom h os)
              /\ computedOffset v <= t < computedOffset v + offsetOf v.
Proof.
  induction os as [|u os IH]; intros h t; simpl; [lia|].
  rewrite (fold_heights_shift os (offsetOf u)); intros H.
  destruct (Z_lt_le_dec t (h + offsetOf u)) as [L|L].
  - exists (layoutOption h u); split; [left; reflexivity|].
    rewrite offsetOf_layoutOption, layoutOption_unfold; cbn; lia.
  - destruct (IH (h + offsetOf u) t) as (v & Hv & Ht); [lia|].
    exists v; split; [right; exact Hv | exact Ht].
Qed.

(** In a tree that has been laid out the rows of the root options tile
    the menu column from two pixels below the anchor down to the height
    of the menu: with no submenu held open, a pointer there is on the row
    of exactly one root option, which becomes the path, and the timer is
    updated once, with the first clock reading. *)
Theorem rescan_menu_column :
  forall (m : Menu) (os : list MenuOption),
    stickySubmenu MenuWidth m = None ->
    options (tree m) = computeOffsetForOptions os ->
    0 <= x (mousePosition m) - x (position m) < MenuWidth ->
    2 <= y (mousePosition m) - y (position m) < 2 + y (size MenuWidth os) ->
    exists v,
      In v (options (tree m)) /\
      hitRoot MenuWidth m v = true /\
      (forall u, In u (options (tree m)) -> hitRoot MenuWidth m u = true -> u = v) /\
      optionPathUnderMouse MenuWidth clock m
      = ([v], enterRoot (clock 0%nat) v m).
Proof.
  intros m os Hs Ht Hx Hy.
  destruct (layout_row_covers os 12
              (y (mousePosition m) - y (position m) + 10))
    as (v & Hv & Hrow); [unfold size in Hy; cbn [y] in Hy; lia|].
  fold (computeOffsetForOptions os) in Hv; rewrite <- Ht in Hv.
  assert (Hhit : hitRoot MenuWidth m v = true) by (apply hitRoot_pixels; lia).
  assert (Hone : filter (hitRoot MenuWidth m) (options (tree m)) = [v]).
  { assert (Hf : In v (filter (hitRoot MenuWidth m) (options (tree m))))
      by (apply filter_In; auto).
    destruct (at_most_one_hit _ rootRow (hitRoot MenuWidth m) _
                (hitRoot_inside MenuWidth m) (options (tree m)))
      as [E|(a & _ & E)].
    - rewrite Ht; exact (layoutFrom_rows_apart 0 os 12).
    - rewrite E in Hf; contradiction.
    - rewrite E in Hf |- *; destruct Hf as [->|[]]; reflexivity. }
  exists v; split; [exact Hv|]; split; [exact Hhit|]; split.
  - intros u Hu Hhu.
    assert (Hf : In u (filter (hitRoot MenuWidth m) (options (tree m))))
      by (apply filter_In; auto).
    rewrite Hone in Hf; destruct Hf as [->|[]]; reflexivity.
  - unfold optionPathUnderMouse, fullRescan; rewrite Hs.
    rewrite (rescan_roots_only MenuWidth clock m v _ Hhit)
      by apply hitTestFrame_refl.
    rewrite Hone; reflexivity.
Qed.

End Scanning.

(** ** The controller, operation by operation *)

Section Operations.

Variable MenuWidth : Z.
Variable PropertiesWidth : Z.
Variable StateActionKeys : ActionKeys.
Variable shortcuts : list (string * string).

(** The hit test writes the buffer flag and the timestamp and nothing
    else: the anchor, the pointer, the tree, the visibility, the stored
    path and the allocator are as before. *)
Theorem hit_test_frame :
  forall (clock : nat -> Z) (m : Menu),
    let m' := snd (optionPathUnderMouse MenuWidth clock m) in
    position m' = position m /\
    mousePosition m' = mousePosition m /\
    mousePositionOnOpen m' = mousePositionOnOpen m /\
    tree m' = tree m /\
    visible m' = visible m /\
    optionPath m' = optionPath m /\
    nextObject m' = nextObject m.
Proof. intros clock m; exact (frame_optionPathUnderMouse MenuWidth clock m). Qed.

Lemma setMousePosition_visible_unfold clock m v :
  visible m = true ->
  let hit := optionPathUnderMouse MenuWidth clock (withMousePosition v m) in
  setMousePosition MenuWidth clock m v
  = let m2 := withOptionPath (fst hit) (snd hit) in
    match fst hit with
    | [] =>
        if pointInBox v (add (position m) (vec2 (-40) (-40)))
             (add (size MenuWidth (options (tree m))) (vec2 80 150))
        then m2 else hide m2
    | _ :: _ => m2
    end.
Proof.
  intros Hv hit; subst hit; unfold setMousePosition.
  cbn [visible withMousePosition]; rewrite Hv; cbn [negb].
  pose proof (frame_optionPathUnderMouse MenuWidth clock (withMousePosition v m))
    as (Fp & Fm & _ & Ft & _).
  destruct (optionPathUnderMouse MenuWidth clock (withMousePosition v m))
    as [path m1]; cbn [fst snd] in *.
  destruct path; [|reflexivity].
  cbn [mousePosition position tree withOptionPath].
  rewrite Fp, Fm, Ft; cbn [mousePosition withMousePosition position tree].
  destruct (pointInBox v _ _); reflexivity.
Qed.

(** A pointer move never opens the menu, and closes it only when the
    path is empty and the pointer is outside the padded box: the menu is
    visible afterwards exactly when it was visible before and the path is
    not empty or the pointer is in the padded box.  The stored path is
    the path of the hit test, or empty when the menu is not visible. *)
Theorem setMousePosition_visibility :
  forall (clock : nat -> Z) (m : Menu) (v : Vec2),
    let path := fst (optionPathUnderMouse MenuWidth clock (withMousePosition v m)) in
    let m' := setMousePosition MenuWidth clock m v in
    visible m'
    = visible m
      && (negb (Nat.eqb (List.length path) 0)
          || pointInBox v (add (position m) (vec2 (-40) (-40)))
               (add (size MenuWidth (options (tree m))) (vec2 80 150))) /\
    optionPath m' = (if visible m then path else []) /\
    mousePosition m' = v.
Proof.
  intros clock m v path m'; subst path m'.
  destruct (visible m) eqn:Hv.
  - rewrite (setMousePosition_visible_unfold clock m v Hv); cbv zeta.
    pose proof (frame_optionPathUnderMouse MenuWidth clock (withMousePosition v m))
      as (_ & Fm & _ & _ & Fv & _).
    destruct (optionPathUnderMouse MenuWidth clock (withMousePosition v m))
      as [path m1]; cbn [fst snd] in *.
    destruct path as [|r rest]; cbn [List.length Nat.eqb negb orb andb].
    + destruct (pointInBox v _ _); cbn; rewrite ?Fv, ?Fm; auto.
    + cbn; rewrite Fv, Fm; auto.
  - unfold setMousePosition; cbn [visible withMousePosition]; rewrite Hv.
    cbn; auto.
Qed.

(** On a visible menu a click and a pointer move at the same position
    compute the same thing: the same path, buffer flag, timestamp and
    pointer are stored; they differ only in whether the menu closes. *)
Theorem click_matches_hover :
  forall (clock : nat -> Z) (m : Menu) (v : Vec2),
    visible m = true ->
    let c := snd (click MenuWidth clock m v) in
    let h := setMousePosition MenuWidth clock m v in
    optionPath c = optionPath h /\
    disableBufferTriangles c = disableBufferTriangles h /\
    enteredRootElementTimestamp c = enteredRootElementTimestamp h /\
    mousePosition c = mousePosition h /\
    position c = position h /\
    tree c = tree h.
Proof.
  intros clock m v Hv c h; subst c h.
  rewrite (click_visible MenuWidth clock m v Hv).
  rewrite (setMousePosition_visible_unfold clock m v Hv); cbv zeta.
  destruct (optionPathUnderMouse MenuWidth clock (withMousePosition v m))
    as [path m1]; cbn [fst snd].
  destruct (resolvedSelection path); destruct path;
    try (destruct (pointInBox v _ _)); cbn; auto 10.
Qed.

(** [setPosition] stores the point as the place where the menu was
    opened and anchors the menu there, or one column width to the left
    when the menu, a submenu and the properties panel would not fit
    before the right bound of the host; the height of the anchor is
    never changed, nothing else is written, and the call overwrites any
    earlier one. *)
Theorem setPosition_spec :
  forall (parent : State) (m : Menu) (v : Vec2),
    let m' := setPosition MenuWidth PropertiesWidth parent m v in
    mousePositionOnOpen m' = v /\
    y (position m') = y v /\
    x (position m')
    = (if x (bounds parent) <? x v + MenuWidth * 2 + PropertiesWidth
       then x v - MenuWidth else x v) /\
    (x (position m') = x v ->
     0 < MenuWidth ->
     x (position m') + MenuWidth * 2 + PropertiesWidth <= x (bounds parent)) /\
    mousePosition m' = mousePosition m /\
    tree m' = tree m /\
    visible m' = visible m /\
    optionPath m' = optionPath m /\
    disableBufferTriangles m' = disableBufferTriangles m /\
    enteredRootElementTimestamp m' = enteredRootElementTimestamp m /\
    forall (parent0 : State) (v0 : Vec2),
      setPosition MenuWidth PropertiesWidth parent
        (setPosition MenuWidth PropertiesWidth parent0 m v0) v = m'.
Proof.
  intros parent m v m'; subst m'; unfold setPosition.
  cbn [position withPosition x y mousePositionOnOpen].
  destruct (x (bounds parent) <? x v + MenuWidth * 2 + PropertiesWidth) eqn:E;
    cbn; destruct v as [vx vy]; cbn in *;
    repeat split; auto; try lia;
    try (intros parent0 v0;
         destruct (x (bounds parent0) <? x v0 + MenuWidth * 2 + PropertiesWidth);
         reflexivity).
Qed.

End Operations.

Section Sessions.

Variable MenuWidth : Z.
Variable PropertiesWidth : Z.
Variable StateActionKeys : ActionKeys.
Variable shortcuts : list (string * string).

Lemma stickySubmenu_childless m :
  match optionPath m with
  | [] => True
  | root :: _ => children root = []
  end ->
  stickySubmenu MenuWidth m = None.
Proof.
  unfold stickySubmenu; destruct (optionPath m) as [|root rest];
    [reflexivity|].
  intros ->; reflexivity.
Qed.

(** Timer gating.  The buffers are disabled and the pointer comes to rest
    on a root option without children that was not selected before: the
    first pointer event starts the timer and leaves the buffers disabled;
    a second event at the same place leaves the timer alone and enables
    the buffers exactly when more than 500 milliseconds have passed
    between the two clock readings. *)
Theorem timer_gating :
  forall (clock1 clock2 : nat -> Z) (m : Menu) (p : Vec2) (v : MenuOption),
    visible m = true ->
    stickySubmenu MenuWidth (withMousePosition p m) = None ->
    pairwise disjointRows (map rootRow (options (tree m))) = true ->
    In v (options (tree m)) ->
    children v = [] ->
    hitRoot MenuWidth (withMousePosition p m) v = true ->
    disableBufferTriangles m = true ->
    differsFromFirst v (optionPath m) = true ->
    let m1 := setMousePosition MenuWidth clock1 m p in
    let m2 := setMousePosition MenuWidth clock2 m1 p in
    optionPath m1 = [v] /\
    enteredRootElementTimestamp m1 = clock1 0%nat /\
    disableBufferTriangles m1 = true /\
    optionPath m2 = [v] /\
    enteredRootElementTimestamp m2 = clock1 0%nat /\
    disableBufferTriangles m2 = negb (500 <? clock2 0%nat - clock1 0%nat) /\
    visible m2 = true.
Proof.
  intros clock1 clock2 m p v Hvis Hs Hrows Hin Hch Hhit Hdis Hdiff m1 m2.
  assert (E1 : m1 = withOptionPath [v]
                      (withTimestamp (clock1 0%nat) (withMousePosition p m))).
  { subst m1; rewrite (setMousePosition_visible_unfold MenuWidth clock1 m p Hvis).
    cbv zeta.
    rewrite (rescan_root_unique MenuWidth clock1 (withMousePosition p m) v
               Hs Hrows Hin Hhit); cbn [fst snd].
    unfold enterRoot; cbn [disableBufferTriangles optionPath withMousePosition].
    rewrite Hdis, Hdiff; cbn [andb enteredRootElementTimestamp withTimestamp].
    rewrite Z.sub_diag; reflexivity. }
  assert (E2 : m2 = withOptionPath [v]
                      (enterRoot (clock2 0%nat) v (withMousePosition p m1))).
  { subst m2.
    rewrite (setMousePosition_visible_unfold MenuWidth clock2 m1 p)
      by (rewrite E1; exact Hvis).
    cbv zeta.
    rewrite (rescan_root_unique MenuWidth clock2 (withMousePosition p m1) v);
      [reflexivity | | | |]; rewrite E1.
    - apply stickySubmenu_childless; exact Hch.
    - exact Hrows.
    - exact Hin.
    - exact Hhit. }
  rewrite E2, E1; unfold enterRoot.
  cbn [optionPath disableBufferTriangles enteredRootElementTimestamp
       withOptionPath withTimestamp withMousePosition differsFromFirst].
  unfold sameObject; rewrite Nat.eqb_refl, Hdis; cbn [negb andb].
  cbn [enteredRootElementTimestamp withOptionPath withTimestamp
       withMousePosition].
  destruct (500 <? clock2 0%nat - clock1 0%nat); cbn; rewrite ?Hvis, ?Hdis;
    auto 10.
Qed.

(** A click on the row of a root option, with no submenu held open and
    root rows that are apart: a root without children closes the menu and
    yields its action when it is enabled and the empty string when not; a
    root with children yields the empty string and the menu stays open. *)
Theorem click_root_row :
  forall (clock : nat -> Z) (m : Menu) (p : Vec2) (v : MenuOption),
    visible m = true ->
    stickySubmenu MenuWidth (withMousePosition p m) = None ->
    pairwise disjointRows (map rootRow (options (tree m))) = true ->
    In v (options (tree m)) ->
    hitRoot MenuWidth (withMousePosition p m) v = true ->
    let answer := fst (click MenuWidth clock m p) in
    let m' := snd (click MenuWidth clock m p) in
    optionPath m' = [v] /\
    match children v with
    | [] => answer = (if enabled v then action v else "") /\ visible m' = false
    | _ :: _ => answer = "" /\ visible m' = true
    end.
Proof.
  intros clock m p v Hvis Hs Hrows Hin Hhit answer m'; subst answer m'.
  rewrite (click_visible MenuWidth clock m p Hvis); cbv zeta.
  rewrite (rescan_root_unique MenuWidth clock (withMousePosition p m) v
             Hs Hrows Hin Hhit); cbn [fst snd resolvedSelection].
  pose proof (frame_enterRoot (clock 0%nat) v (withMousePosition p m))
    as (_ & _ & _ & _ & Fv & _).
  destruct (children v); cbn; rewrite ?Fv; auto.
Qed.

(** A click on the row of a child, with no submenu held open and a tree
    whose rows are apart: the menu closes and the click yields the action
    of the child when the child is enabled and the empty string when not.
    Whether the root is enabled plays no part. *)
Theorem click_child_row :
  forall (clock : nat -> Z) (m : Menu) (p : Vec2) (v c : MenuOption),
    visible m = true ->
    stickySubmenu MenuWidth (withMousePosition p m) = None ->
    nonOverlapping (options (tree m)) = true ->
    In v (options (tree m)) ->
    In c (children v) ->
    hitChild MenuWidth (withMousePosition p m) v c = true ->
    click MenuWidth clock m p
    = (if enabled c then action c else "",
       hide (withOptionPath [v; c]
               (withDisableBufferTriangles true (withMousePosition p m)))).
Proof.
  intros clock m p v c Hvis Hs Hno Hv Hc Hhit.
  rewrite (click_visible MenuWidth clock m p Hvis); cbv zeta.
  rewrite (rescan_child_hit MenuWidth clock (withMousePosition p m) v c
             Hs Hno Hv Hc Hhit); reflexivity.
Qed.

(** [show] makes the menu visible and installs a freshly built tree of
    eleven root options; it keeps the anchor, the pointer, the stored
    path, the buffer flag and the timestamp of the previous session.  The
    tree is laid out, its rows are apart and it is 166 pixels high;
    "Copy", "Handle Type" and "Snap" are enabled exactly when the host has
    a point selected, every other root option and every child is always
    enabled, and nothing else of the host is looked at. *)
Theorem show_spec :
  forall (parent : State) (m : Menu),
    let m' := show StateActionKeys shortcuts parent m in
    let b := hasSelectedPoint parent in
    visible m' = true /\
    optionPath m' = optionPath m /\
    position m' = position m /\
    mousePosition m' = mousePosition m /\
    mousePositionOnOpen m' = mousePositionOnOpen m /\
    disableBufferTriangles m' = disableBufferTriangles m /\
    enteredRootElementTimestamp m' = enteredRootElementTimestamp m /\
    map label (options (tree m'))
    = ["Curve Context Menu"; ""; "Copy"; ""; "Move frame guide";
       "Move value guide"; ""; "Handle Type"; "Insert keyframe";
       "Insert keyframe in all curves"; "Snap"] /\
    map enabled (options (tree m'))
    = [true; true; b; true; true; true; true; b; true; true; b] /\
    (forall r c, In r (options (tree m')) -> In c (children r) ->
                 enabled c = true) /\
    computeOffsetForOptions (options (tree m')) = options (tree m') /\
    nonOverlapping (options (tree m')) = true /\
    size MenuWidth (options (tree m')) = vec2 MenuWidth 166 /\
    forall parent',
      hasSelectedPoint parent' = b ->
      tree (show StateActionKeys shortcuts parent' m) = tree m'.
Proof.
  intros parent m m' b; subst m' b.
  repeat (split; [reflexivity|]).
  split.
  - intros r c Hr Hc; cbn in Hr.
    repeat (destruct Hr as [<-|Hr];
            [cbn in Hc;
             repeat (destruct Hc as [<-|Hc]; [reflexivity|]); contradiction|]).
    contradiction.
  - repeat (split; [reflexivity|]).
    intros parent' H; unfold show, rebuildOptions, hasSelectedPoint in *.
    cbn; rewrite H; reflexivity.
Qed.

End Sessions.

(** ** Options and their shortcuts *)

Lemma shortcut_scan_miss (act : string) (l : list (string * string)) :
  (forall k a, In (k, a) l -> a <> act) ->
  forall found,
    fold_left (fun found kv => if String.eqb (snd kv) act then fst kv else found)
      l found = found.
Proof.
  induction l as [|[k a] l IH]; intros H found; simpl; [reflexivity|].
  assert (E : String.eqb a act = false)
    by (apply String.eqb_neq; apply (H k); left; reflexivity).
  rewrite E; apply IH; intros k' a' Hin; apply (H k'); right; exact Hin.
Qed.

(** The shortcut shown for an option is the last key of the shortcut
    table that is bound to the action of the option, and the empty string
    when no key is bound to it; an option is created at offset 0 with the
    type [Default]. *)
Theorem simpleOption_shortcut :
  forall (shortcuts : list (string * string)) (i : nat) (lbl act : string)
         (en : bool) (ch : list MenuOption),
    let o := simpleOption shortcuts i lbl act en ch in
    ((forall k a, In (k, a) shortcuts -> a <> act) -> shortcut o = "") /\
    (forall pre k post,
        shortcuts = pre ++ (k, act) :: post ->
        (forall k' a, In (k', a) post -> a <> act) ->
        shortcut o = k) /\
    type o = Default /\ computedOffset o = 0 /\
    label o = lbl /\ action o = act /\ enabled o = en /\ children o = ch.
Proof.
  intros shortcuts i lbl act en ch o; subst o; unfold simpleOption.
  cbn [shortcut type computedOffset label action enabled children].
  split; [|split; [|repeat split]].
  - intros H; apply shortcut_scan_miss; exact H.
  - intros pre k post -> H.
    rewrite fold_left_app; cbn [fold_left snd fst].
    rewrite String.eqb_refl; apply shortcut_scan_miss; exact H.
Qed.

(** ** Objects across sessions *)

Section Objects.

Variable MenuWidth : Z.
Variable PropertiesWidth : Z.
Variable StateActionKeys : ActionKeys.
Variable shortcuts : list (string * string).

Lemma head_of_hits (A : Type) (f : A -> list MenuOption) (l : list A) r rest :
  flat_map f l = r :: rest ->
  exists a rest', In a l /\ f a = r :: rest'.
Proof.
  induction l as [|a l IH]; simpl; [discriminate|].
  destruct (f a) as [|b bs] eqn:E; simpl; intros H.
  - destruct (IH H) as (a' & rest' & Hin & Hf).
    exists a', rest'; split; [right; exact Hin | exact Hf].
  - inversion H; subst; exists a, bs; split; [left; reflexivity | exact E].
Qed.

Lemma hitTest_head clock m r rest :
  fst (optionPathUnderMouse MenuWidth clock m) = r :: rest ->
  (exists rest0, optionPath m = r :: rest0) \/ In r (options (tree m)).
Proof.
  unfold optionPathUnderMouse.
  destruct (stickySubmenu MenuWidth m) as [res|] eqn:Hs.
  - apply stickySubmenu_cases in Hs.
    destruct Hs as (root & rest0 & Hp & _ & [[_ ->] | [_ ->]]); cbn [fst].
    + rewrite sticky_fold; cbn [app]; intros H.
      apply head_of_hits in H; destruct H as (c & rest' & _ & H).
      destruct (inChildRow MenuWidth m (rowUpperLeft m root) c);
        [|discriminate].
      inversion H; subst; left; exists rest0; exact Hp.
    + intros H; inversion H; subst; left; exists rest0; exact Hp.
  - rewrite fullRescan_path; intros H; right.
    apply head_of_hits in H; destruct H as (v & rest' & Hv & H).
    unfold hitsAt in H.
    destruct (hitRoot MenuWidth m v); [inversion H; subst; exact Hv|].
    cbn [app] in H; apply head_of_hits in H.
    destruct H as (c & rest'' & _ & H).
    destruct (hitChild MenuWidth m v c); [|discriminate].
    inversion H; subst; exact Hv.
Qed.

Lemma hitTest_allocated clock m v :
  objectsAllocated m ->
  objectsAllocated
    (withOptionPath
       (fst (optionPathUnderMouse MenuWidth clock (withMousePosition v m)))
       (snd (optionPathUnderMouse MenuWidth clock (withMousePosition v m)))).
Proof.
  intros [Ht Hp].
  pose proof (frame_optionPathUnderMouse MenuWidth clock (withMousePosition v m))
    as (_ & _ & _ & Ft & _ & _ & Fn).
  pose proof (hitTest_head clock (withMousePosition v m)) as Hh.
  destruct (optionPathUnderMouse MenuWidth clock (withMousePosition v m))
    as [path m1]; cbn [fst snd] in *.
  split; cbn [tree nextObject optionPath withOptionPath].
  - rewrite Ft, Fn; exact Ht.
  - destruct path as [|r rest]; [exact I|].
    rewrite Fn; cbn [nextObject withMousePosition].
    destruct (Hh r rest eq_refl) as [(rest0 & E)|Hin].
    + cbn [optionPath withMousePosition] in E; rewrite E in Hp; exact Hp.
    + apply Ht; exact Hin.
Qed.

Lemma rebuildOptions_allocated parent m :
  (match optionPath m with
   | [] => True
   | r :: _ => (oid r < nextObject m)%nat
   end) ->
  objectsAllocated (rebuildOptions StateActionKeys shortcuts parent m).
Proof.
  intros Hp; split.
  - intros r Hr; cbn in Hr |- *.
    repeat (destruct Hr as [<-|Hr]; [cbn; lia|]); contradiction.
  - cbn; destruct (optionPath m); [exact I | lia].
Qed.

Lemma reachable_allocated m :
  reachable MenuWidth PropertiesWidth StateActionKeys shortcuts noExternalTree m ->
  objectsAllocated m.
Proof.
  induction 1 as [parent | parent m _ [Ht Hp] | m _ IH | t m Ha _ _
                 | parent m v _ IH | clock m v _ IH | clock m v _ IH].
  - unfold construct.
    match goal with
    | |- objectsAllocated (withVisible false (rebuildOptions _ _ _ ?m0)) =>
        exact (rebuildOptions_allocated parent m0 I)
    end.
  - exact (rebuildOptions_allocated parent m Hp).
  - exact IH.
  - destruct Ha.
  - unfold setPosition.
    match goal with |- context [if ?c then _ else _] => destruct c end; exact IH.
  - destruct (visible m) eqn:Hv.
    + rewrite (setMousePosition_visible_unfold MenuWidth clock m v Hv); cbv zeta.
      pose proof (hitTest_allocated clock m v IH) as K.
      destruct (fst (optionPathUnderMouse MenuWidth clock (withMousePosition v m)));
        [|exact K].
      destruct (pointInBox v _ _); exact K.
    + unfold setMousePosition; cbn [visible withMousePosition]; rewrite Hv.
      destruct IH as [Ht _]; split; [exact Ht | exact I].
  - destruct (visible m) eqn:Hv.
    + rewrite (click_visible MenuWidth clock m v Hv); cbv zeta.
      pose proof (hitTest_allocated clock m v IH) as K.
      destruct (resolvedSelection _); exact K.
    + rewrite (click_invisible MenuWidth clock m v Hv); exact IH.
Qed.

(** As long as the host installs no tree of its own, every option the
    menu holds on to is an object it has built before; and since [show]
    builds new objects, no root option of a menu that has just been shown
    is the object at the head of the stored path: the comparison in the
    timer sees a changed root. *)
Theorem show_builds_new_objects :
  forall (m : Menu) (parent : State),
    reachable MenuWidth PropertiesWidth StateActionKeys shortcuts noExternalTree m ->
    objectsAllocated m /\
    forall v,
      In v (options (tree (show StateActionKeys shortcuts parent m))) ->
      differsFromFirst v (optionPath (show StateActionKeys shortcuts parent m))
      = true.
Proof.
  intros m parent H; apply reachable_allocated in H; split; [exact H|].
  destruct H as [_ Hp]; intros v Hv.
  change (optionPath (show StateActionKeys shortcuts parent m))
    with (optionPath m).
  destruct (optionPath m) as [|r rest]; [reflexivity|].
  cbn [differsFromFirst]; unfold sameObject.
  apply negb_true_iff, Nat.eqb_neq.
  cbn in Hv.
  repeat (destruct Hv as [<-|Hv]; [cbn; lia|]); contradiction.
Qed.

End Objects.

(** ** The hit test depends on the pointer relative to the anchor only *)

Section Translation.

Variable MenuWidth : Z.
Variable clock : nat -> Z.
Variable d : Vec2.

Lemma pointInBox_relative (p ul p' ul' sz : Vec2) :
  x p - x ul = x p' - x ul' ->
  y p - y ul = y p' - y ul' ->
  pointInBox p ul sz = pointInBox p' ul' sz.
Proof.
  intros Hx Hy; unfold pointInBox, sub; cbn [x y]; rewrite Hx, Hy; reflexivity.
Qed.

Lemma pointInTriangle_relative (p t0 t1 t2 p' t0' t1' t2' : Vec2) :
  sub t1 t0 = sub t1' t0' ->
  sub t2 t0 = sub t2' t0' ->
  sub p t0 = sub p' t0' ->
  pointInTriangle p (t0, t1, t2) = pointInTriangle p' (t0', t1', t2').
Proof.
  intros H1 H2 H3; unfold pointInTriangle, baycentric.
  rewrite H1, H2, H3; reflexivity.
Qed.

Ltac relative_prepare :=
  unfold moveBy, rowUpperLeft, size;
  cbn [x y position mousePosition withPosition withMousePosition tree];
  unfold add, sub; cbn [x y].

Ltac relative := relative_prepare; ring.

Ltac relative_vec := relative_prepare; f_equal; ring.

Lemma hitRoot_moved m v :
  hitRoot MenuWidth (moveBy d m) v = hitRoot MenuWidth m v.
Proof. unfold hitRoot; apply pointInBox_relative; relative. Qed.

Lemma hitChild_moved m v c :
  hitChild MenuWidth (moveBy d m) v c = hitChild MenuWidth m v c.
Proof. unfold hitChild, inChildRow; apply pointInBox_relative; relative. Qed.

Lemma inChildMenu_moved m root :
  inChildMenu MenuWidth (moveBy d m) root = inChildMenu MenuWidth m root.
Proof. unfold inChildMenu; apply pointInBox_relative; relative. Qed.

Lemma stickyRegion_moved m root :
  stickyRegion MenuWidth (moveBy d m) root = stickyRegion MenuWidth m root.
Proof.
  unfold stickyRegion; rewrite inChildMenu_moved.
  assert (E1 : inRootOption MenuWidth (moveBy d m) root
               = inRootOption MenuWidth m root)
    by (unfold inRootOption; apply pointInBox_relative; relative).
  assert (E2 : inChildBuffer MenuWidth (moveBy d m) root
               = inChildBuffer MenuWidth m root)
    by (unfold inChildBuffer; apply pointInBox_relative; relative).
  assert (E3 : inBufferTriangles MenuWidth (moveBy d m) root
               = inBufferTriangles MenuWidth m root).
  { unfold inBufferTriangles, upperBufferTriangle, lowerBufferTriangle.
    cbn [disableBufferTriangles moveBy withPosition withMousePosition].
    f_equal; f_equal; apply pointInTriangle_relative; relative_vec. }
  rewrite E1, E2, E3; reflexivity.
Qed.

Lemma stickySubmenu_moved m :
  stickySubmenu MenuWidth (moveBy d m)
  = match stickySubmenu MenuWidth m with
    | Some (path, m') => Some (path, moveBy d m')
    | None => None
    end.
Proof.
  destruct (optionPath m) as [|root rest] eqn:Hp.
  - unfold stickySubmenu; cbn [optionPath moveBy withPosition withMousePosition].
    rewrite Hp; reflexivity.
  - destruct (children root) as [|c0 cs] eqn:Hc.
    + unfold stickySubmenu; cbn [optionPath moveBy withPosition withMousePosition].
      rewrite Hp, Hc; reflexivity.
    + assert (Hne : children root <> []) by (rewrite Hc; discriminate).
      rewrite (stickySubmenu_region MenuWidth (moveBy d m) root rest Hp Hne).
      rewrite (stickySubmenu_region MenuWidth m root rest Hp Hne).
      rewrite stickyRegion_moved, inChildMenu_moved.
      destruct (stickyRegion MenuWidth m root); [|reflexivity].
      destruct (inChildMenu MenuWidth m root); [|reflexivity].
      f_equal; f_equal.
      rewrite !sticky_fold; cbn [app].
      clear Hc Hne; induction (children root) as [|c l IH]; [reflexivity|].
      cbn [flat_map]; rewrite IH.
      fold (hitChild MenuWidth (moveBy d m) root c) (hitChild MenuWidth m root c).
      rewrite hitChild_moved; reflexivity.
Qed.

Lemma rowUpperLeft_moved_frame m m' v :
  hitTestFrame m m' ->
  rowUpperLeft (moveBy d m) v = rowUpperLeft (moveBy d m') v.
Proof.
  intros (Hp & _); unfold rowUpperLeft, moveBy.
  cbn [position withPosition]; rewrite Hp; reflexivity.
Qed.

Lemma visitChild_moved v c s :
  visitChild MenuWidth (rowUpperLeft (moveBy d (self s)) v) v c (moveScanBy d s)
  = moveScanBy d (visitChild MenuWidth (rowUpperLeft (self s) v) v c s).
Proof.
  unfold visitChild; cbn [self moveScanBy].
  fold (hitChild MenuWidth (moveBy d (self s)) v c)
       (hitChild MenuWidth (self s) v c).
  rewrite hitChild_moved.
  destruct (hitChild MenuWidth (self s) v c); reflexivity.
Qed.

Lemma visitChildren_moved v (cs : list MenuOption) :
  forall s ul,
    ul = rowUpperLeft (self s) v ->
    fold_left
      (fun a c => visitChild MenuWidth (rowUpperLeft (moveBy d (self s)) v) v c a)
      cs (moveScanBy d s)
    = moveScanBy d
        (fold_left (fun a c => visitChild MenuWidth ul v c a) cs s).
Proof.
  induction cs as [|c cs IH]; intros s ul ->; [reflexivity|].
  cbn [fold_left]; rewrite visitChild_moved.
  assert (F : rowUpperLeft
                (self (visitChild MenuWidth (rowUpperLeft (self s) v) v c s)) v
              = rowUpperLeft (self s) v).
  { apply rowUpperLeft_frame.
    apply frame_visitChild; apply hitTestFrame_refl. }
  assert (G : rowUpperLeft (moveBy d (self s)) v
              = rowUpperLeft
                  (moveBy d
                     (self (visitChild MenuWidth (rowUpperLeft (self s) v) v c s)))
                  v).
  { apply rowUpperLeft_moved_frame.
    apply frame_visitChild; apply hitTestFrame_refl. }
  rewrite G, (IH _ (rowUpperLeft (self s) v)); [reflexivity | symmetry; exact F].
Qed.

Lemma enterRoot_moved now v m :
  enterRoot now v (moveBy d m) = moveBy d (enterRoot now v m).
Proof.
  destruct m as [pos mouse onOpen t vis path dis ts next].
  unfold enterRoot, moveBy; cbn.
  destruct (dis && differsFromFirst v path); cbn;
    match goal with |- context [500 <? ?e] => destruct (500 <? e) end;
    reflexivity.
Qed.

Lemma visitRoot_moved v s :
  visitRoot MenuWidth clock v (moveScanBy d s)
  = moveScanBy d (visitRoot MenuWidth clock v s).
Proof.
  unfold visitRoot.
  fold (hitRoot MenuWidth (self (moveScanBy d s)) v)
       (hitRoot MenuWidth (self s) v).
  cbn [self moveScanBy ticks result]; rewrite hitRoot_moved.
  destruct (hitRoot MenuWidth (self s) v).
  - rewrite enterRoot_moved.
    set (s1 := mkScan (result s ++ [v])
                 (enterRoot (clock (ticks s)) v (self s)) (S (ticks s))).
    change (mkScan (result s ++ [v])
              (moveBy d (enterRoot (clock (ticks s)) v (self s))) (S (ticks s)))
      with (moveScanBy d s1).
    assert (F : rowUpperLeft (self s1) v = rowUpperLeft (self s) v)
      by (apply rowUpperLeft_frame, frame_enterRoot).
    assert (G : rowUpperLeft (moveBy d (self s)) v
                = rowUpperLeft (moveBy d (self s1)) v).
    { apply rowUpperLeft_moved_frame; apply frame_enterRoot. }
    rewrite G; apply visitChildren_moved; exact (eq_sym F).
  - apply visitChildren_moved; reflexivity.
Qed.

Lemma rescan_moved (os : list MenuOption) :
  forall s,
    fold_left (fun a v => visitRoot MenuWidth clock v a) os (moveScanBy d s)
    = moveScanBy d (fold_left (fun a v => visitRoot MenuWidth clock v a) os s).
Proof.
  induction os as [|v os IH]; intros s; [reflexivity|].
  cbn [fold_left]; rewrite visitRoot_moved; apply IH.
Qed.

Lemma optionPathUnderMouse_moved :
  forall (m : Menu),
    optionPathUnderMouse MenuWidth clock (moveBy d m)
    = (fst (optionPathUnderMouse MenuWidth clock m),
       moveBy d (snd (optionPathUnderMouse MenuWidth clock m))).
Proof.
  intros m; unfold optionPathUnderMouse; rewrite stickySubmenu_moved.
  destruct (stickySubmenu MenuWidth m) as [[path m']|]; [reflexivity|].
  unfold fullRescan.
  cbn [tree moveBy withPosition withMousePosition fst snd].
  change (mkScan [] (moveBy d m) 0%nat) with (moveScanBy d (mkScan [] m 0%nat)).
  change (withPosition (add (position m) d) (mousePositionOnOpen m)
            (withMousePosition (add (mousePosition m) d) m))
    with (moveBy d m).
  rewrite rescan_moved; reflexivity.
Qed.

(** Moving the anchor and the pointer by the same vector changes neither
    the path nor what the hit test writes, and a pointer move or a click
    on the moved menu does what it does on the original one: the menu
    behaves the same wherever it is opened. *)
Theorem translation_invariance :
  forall (m : Menu) (v : Vec2),
    optionPathUnderMouse MenuWidth clock (moveBy d m)
    = (fst (optionPathUnderMouse MenuWidth clock m),
       moveBy d (snd (optionPathUnderMouse MenuWidth clock m))) /\
    setMousePosition MenuWidth clock (anchorBy d m) (add v d)
    = moveBy d (setMousePosition MenuWidth clock m v) /\
    fst (click MenuWidth clock (anchorBy d m) (add v d))
    = fst (click MenuWidth clock m v) /\
    optionPath (snd (click MenuWidth clock (anchorBy d m) (add v d)))
    = optionPath (snd (click MenuWidth clock m v)) /\
    visible (snd (click MenuWidth clock (anchorBy d m) (add v d)))
    = visible (snd (click MenuWidth clock m v)).
Proof.
  intros m v; split; [apply optionPathUnderMouse_moved|].
  assert (M : withMousePosition (add v d) (anchorBy d m)
              = moveBy d (withMousePosition v m)) by reflexivity.
  destruct (visible m) eqn:Hv.
  - assert (Hv' : visible (anchorBy d m) = true) by exact Hv.
    rewrite (setMousePosition_visible_unfold MenuWidth clock (anchorBy d m)
               (add v d) Hv').
    rewrite (setMousePosition_visible_unfold MenuWidth clock m v Hv).
    rewrite (click_visible MenuWidth clock (anchorBy d m) (add v d) Hv').
    rewrite (click_visible MenuWidth clock m v Hv).
    cbv zeta; rewrite M, optionPathUnderMouse_moved.
    destruct (optionPathUnderMouse MenuWidth clock (withMousePosition v m))
      as [path m1]; cbn [fst snd].
    split.
    + destruct path; [|reflexivity].
      assert (B : pointInBox (add v d)
                    (add (position (anchorBy d m)) (vec2 (-40) (-40)))
                    (add (size MenuWidth (options (tree (anchorBy d m))))
                       (vec2 80 150))
                  = pointInBox v (add (position m) (vec2 (-40) (-40)))
                      (add (size MenuWidth (options (tree m))) (vec2 80 150))).
      { apply pointInBox_relative; unfold anchorBy;
          cbn [position withPosition]; unfold add; cbn [x y]; ring. }
      rewrite B; destruct (pointInBox v _ _); reflexivity.
    + destruct (resolvedSelection path); cbn; auto.
  - assert (Hv' : visible (anchorBy d m) = false) by exact Hv.
    rewrite (click_invisible MenuWidth clock _ _ Hv').
    rewrite (click_invisible MenuWidth clock _ _ Hv).
    unfold setMousePosition; cbn [visible withMousePosition anchorBy withPosition].
    rewrite Hv; cbn; auto.
Qed.

End Translation.

(** * The further properties at work on the concrete menu *)

Lemma pointInTriangle_degenerate_witness :
  doubleArea (vec2 0 0, vec2 0 0, vec2 5 5) = 0
  /\ pointInTriangle (vec2 1 1) (vec2 0 0, vec2 0 0, vec2 5 5) = false.
Proof.
  split; [reflexivity|].
  exact (pointInTriangle_degenerate (vec2 1 1) (vec2 0 0) (vec2 0 0) (vec2 5 5)
           eq_refl).
Defined.

Lemma pointInTriangle_corners_witness :
  doubleArea (vec2 0 0, vec2 4 0, vec2 0 3) <> 0
  /\ pointInTriangle (vec2 4 0) (vec2 0 0, vec2 4 0, vec2 0 3) = true.
Proof.
  assert (H : doubleArea (vec2 0 0, vec2 4 0, vec2 0 3) <> 0)
    by (vm_compute; discriminate).
  split; [exact H|].
  exact (proj1 (proj2 (pointInTriangle_corners (vec2 0 0) (vec2 4 0) (vec2 0 3) H))).
Defined.



Lemma demoSnap_in_tree : In demoSnap (options (tree demoOpen)).
Proof.
  assert (L : (10 < List.length (options (tree demoOpen)))%nat)
    by (vm_compute; repeat constructor).
  exact (nth_In (options (tree demoOpen)) (spacer 0) L).
Qed.

Lemma demoMoveFrame_in_tree : In demoMoveFrame (options (tree demoOpen)).
Proof.
  assert (L : (4 < List.length (options (tree demoOpen)))%nat)
    by (vm_compute; repeat constructor).
  exact (nth_In (options (tree demoOpen)) (spacer 0) L).
Qed.

Lemma demoSnapFrame_in_children : In demoSnapFrame (children demoSnap).
Proof.
  assert (L : (2 < List.length (children demoSnap))%nat)
    by (vm_compute; repeat constructor).
  exact (nth_In (children demoSnap) (spacer 0) L).
Qed.

Lemma demoSnapValue_in_children : In demoSnapValue (children demoSnap).
Proof.
  assert (L : (3 < List.length (children demoSnap))%nat)
    by (vm_compute; repeat constructor).
  exact (nth_In (children demoSnap) (spacer 0) L).
Qed.

Lemma demoSnap_has_children : children demoSnap <> [].
Proof. vm_compute; discriminate. Qed.

Ltac by_computation := vm_compute; reflexivity.

Lemma sticky_keeps_root_witness :
  optionPathUnderMouse 200 demoClock (withMousePosition (vec2 150 260) demoOnSnap)
  = ([demoSnap], withMousePosition (vec2 150 260) demoOnSnap).
Proof.
  apply (sticky_keeps_root 200 demoClock
           (withMousePosition (vec2 150 260) demoOnSnap) demoSnap []);
    [by_computation | exact demoSnap_has_children | by_computation
    | by_computation].
Defined.

Lemma sticky_released_witness :
  optionPathUnderMouse 200 demoClock demoOpen = fullRescan 200 demoClock demoOpen.
Proof. apply (sticky_released 200 demoClock demoOpen); vm_compute; exact I. Defined.

Lemma demoSnap_children_apart : childrenApart demoSnap.
Proof. by_computation. Qed.

Lemma sticky_selects_child_witness :
  optionPathUnderMouse 200 demoClock (withMousePosition (vec2 305 280) demoOnSnap)
  = ([demoSnap; demoSnapFrame],
     withDisableBufferTriangles true
       (withMousePosition (vec2 305 280) demoOnSnap)).
Proof.
  apply (sticky_selects_child 200 demoClock
           (withMousePosition (vec2 305 280) demoOnSnap) demoSnap demoSnapFrame []);
    [by_computation | exact demoSnap_children_apart
    | exact demoSnapFrame_in_children | by_computation | by_computation].
Defined.

Lemma sticky_row_below_box_witness :
  hitChild 200 (withMousePosition (vec2 305 310) demoOnSnap) demoSnap
    demoSnapValue = true
  /\ inChildMenu 200 (withMousePosition (vec2 305 310) demoOnSnap) demoSnap
     = false
  /\ optionPathUnderMouse 200 demoClock
       (withMousePosition (vec2 305 310) demoOnSnap)
     = ([demoSnap], withMousePosition (vec2 305 310) demoOnSnap).
Proof.
  split; [by_computation|]; split; [by_computation|].
  apply (sticky_row_below_box 200 demoClock
           (withMousePosition (vec2 305 310) demoOnSnap) demoSnap demoSnapValue
           [] (children demoSnap));
    [by_computation | by_computation | exact demoSnapValue_in_children
    | by_computation | by_computation].
Defined.

Lemma rescan_outside_columns_witness :
  optionPathUnderMouse 200 demoClock (withMousePosition (vec2 50 150) demoOpen)
  = ([], withMousePosition (vec2 50 150) demoOpen).
Proof.
  apply (rescan_outside_columns 200 demoClock
           (withMousePosition (vec2 50 150) demoOpen));
    [by_computation | left; by_computation].
Defined.

Lemma rescan_selects_child_witness :
  optionPathUnderMouse 200 demoClock (withMousePosition (vec2 305 280) demoOpen)
  = ([demoSnap; demoSnapFrame],
     withDisableBufferTriangles true (withMousePosition (vec2 305 280) demoOpen)).
Proof.
  apply (rescan_selects_child 200 demoClock
           (withMousePosition (vec2 305 280) demoOpen) demoSnap demoSnapFrame);
    [by_computation | by_computation | exact demoSnap_in_tree
    | exact demoSnapFrame_in_children | by_computation].
Defined.

Lemma rescan_menu_column_witness :
  exists v,
    In v (options (tree demoOpen)) /\
    hitRoot 200 (withMousePosition (vec2 150 253) demoOpen) v = true /\
    (forall u, In u (options (tree demoOpen)) ->
               hitRoot 200 (withMousePosition (vec2 150 253) demoOpen) u = true ->
               u = v) /\
    optionPathUnderMouse 200 demoClock (withMousePosition (vec2 150 253) demoOpen)
    = ([v], enterRoot (demoClock 0%nat) v
              (withMousePosition (vec2 150 253) demoOpen)).
Proof.
  apply (rescan_menu_column 200 demoClock
           (withMousePosition (vec2 150 253) demoOpen)
           (options (tree demoOpen)));
    [by_computation | by_computation | vm_compute; split; [discriminate | reflexivity]
    | vm_compute; split; [discriminate | reflexivity]].
Defined.

Lemma rescan_single_root_witness :
  optionPathUnderMouse 200 demoClock (withMousePosition (vec2 150 253) demoOpen)
  = ([demoSnap], enterRoot (demoClock 0%nat) demoSnap
                   (withMousePosition (vec2 150 253) demoOpen)).
Proof.
  apply (rescan_single_root 200 demoClock
           (withMousePosition (vec2 150 253) demoOpen) demoSnap);
    [by_computation | by_computation | exact demoSnap_in_tree | by_computation].
Defined.

Lemma submenu_top_band_witness :
  inChildMenu 200 demoInGap demoSnap = true /\
  forall c, In c (children demoSnap) ->
            inChildRow 200 demoInGap (rowUpperLeft demoInGap demoSnap) c = false.
Proof.
  apply (submenu_top_band 200 demoInGap demoSnap);
    [exact demoSnap_has_children
    | exists (children demoSnap); by_computation
    | vm_compute; split; [discriminate | reflexivity]
    | vm_compute; split; [discriminate | reflexivity]].
Defined.

Lemma click_matches_hover_witness :
  visible demoOpen = true
  /\ optionPath (snd (click 200 demoClock demoOpen (vec2 150 253)))
     = optionPath (setMousePosition 200 demoClock demoOpen (vec2 150 253)).
Proof.
  assert (H : visible demoOpen = true) by by_computation.
  split; [exact H|].
  exact (proj1 (click_matches_hover 200 demoClock demoOpen (vec2 150 253) H)).
Defined.

Lemma timer_gating_witness :
  disableBufferTriangles (setMousePosition 200 demoClock demoOpen (vec2 150 150))
  = true
  /\ disableBufferTriangles
       (setMousePosition 200 demoLater
          (setMousePosition 200 demoClock demoOpen (vec2 150 150)) (vec2 150 150))
     = false.
Proof.
  destruct (timer_gating 200 demoClock demoLater demoOpen (vec2 150 150)
              demoMoveFrame)
    as (_ & _ & H1 & _ & _ & H2 & _);
    [by_computation | by_computation | by_computation
    | exact demoMoveFrame_in_tree | by_computation | by_computation
    | by_computation | by_computation |].
  split; [exact H1 | exact H2].
Defined.

Lemma click_root_row_witness :
  optionPath (snd (click 200 demoClock demoOpen (vec2 150 150))) = [demoMoveFrame].
Proof.
  apply (click_root_row 200 demoClock demoOpen (vec2 150 150) demoMoveFrame);
    [by_computation | by_computation | by_computation
    | exact demoMoveFrame_in_tree | by_computation].
Defined.

Lemma click_child_row_witness :
  click 200 demoClock demoOpen (vec2 305 280)
  = (if enabled demoSnapFrame then action demoSnapFrame else "",
     hide (withOptionPath [demoSnap; demoSnapFrame]
             (withDisableBufferTriangles true
                (withMousePosition (vec2 305 280) demoOpen)))).
Proof.
  apply (click_child_row 200 demoClock demoOpen (vec2 305 280) demoSnap
           demoSnapFrame);
    [by_computation | by_computation | by_computation | exact demoSnap_in_tree
    | exact demoSnapFrame_in_children | by_computation].
Defined.

Lemma demoOnSnap_reachable_own_trees :
  reachable 200 300 demoKeys [] noExternalTree demoOnSnap.
Proof.
  apply reach_setMousePosition, reach_setPosition, reach_show, reach_construct.
Qed.

Lemma show_builds_new_objects_witness :
  differsFromFirst
    (nth 10 (options (tree (show demoKeys [] demoParent demoOnSnap))) (spacer 0))
    (optionPath (show demoKeys [] demoParent demoOnSnap))
  = true.
Proof.
  assert (L : (10 < List.length
                       (options (tree (show demoKeys [] demoParent demoOnSnap))))%nat)
    by (vm_compute; repeat constructor).
  exact (proj2 (show_builds_new_objects 200 300 demoKeys [] demoOnSnap demoParent
                  demoOnSnap_reachable_own_trees) _
           (nth_In _ (spacer 0) L)).
Defined.
